(** * icecube_tools: simulator.py and detector/angular_resolution.py

    A shallow embedding of the event-generation engine ([Simulator]) and of
    the angular-resolution module, with the properties of the design document
    stated against it.

    Conventions of the embedding.
    - A Python/numpy float is a [float64]: an exact real, or one of the IEEE
      special values [PInf], [NInf], [NaN].  Rounding is idealised away (finite
      values are exact reals), the special values are not: numpy divides by
      zero without raising and returns [inf] or [nan].  Zero is unsigned.
    - Python exceptions are the [Raise] outcome of [result].
    - Random draws and calls into collaborators (flux model, effective area,
      energy resolution) thread a state [world]. *)

From Stdlib Require Import Reals Lra Lia List ZArith String Bool Sorted.
Import ListNotations.
Open Scope R_scope.

(* ===================================================================== *)
(** ** Python outcomes *)

Module Py.

Inductive exn : Type :=
| TypeError
| ValueError
| IndexError
| NameError
| AttributeError
| OSError.

(** [OutOfFuel] is not a Python outcome: it marks that the step budget given
    to an unbounded [while] loop ran out. *)
Inductive result (A : Type) : Type :=
| Ok (a : A)
| Raise (e : exn)
| OutOfFuel.

Arguments Ok {A} a.
Arguments Raise {A} e.
Arguments OutOfFuel {A}.

Definition rbind {A B} (c : result A) (k : A -> result B) : result B :=
  match c with
  | Ok a => k a
  | Raise e => Raise e
  | OutOfFuel => OutOfFuel
  end.

(** [l[i]] on a Python sequence, for a non-negative index. *)
Definition getitem {A} (l : list A) (i : nat) : result A :=
  match nth_error l i with
  | Some a => Ok a
  | None => Raise IndexError
  end.

(** Computations that draw random numbers or call a collaborator: they read
    and update a state [W] and may raise.  What a computation that raises has
    done to the state is not kept. *)
Definition M (W A : Type) : Type := W -> result (A * W).

Definition ret {W A} (a : A) : M W A := fun w => Ok (a, w).

Definition bind {W A B} (c : M W A) (k : A -> M W B) : M W B :=
  fun w => match c w with
           | Ok (a, w') => k a w'
           | Raise e => Raise e
           | OutOfFuel => OutOfFuel
           end.

Definition lift {W A} (c : result A) : M W A :=
  fun w => match c with
           | Ok a => Ok (a, w)
           | Raise e => Raise e
           | OutOfFuel => OutOfFuel
           end.

End Py.
Import Py.

Declare Scope py_scope.
Delimit Scope py_scope with py.
Notation "x <- c ;; k" := (rbind c (fun x => k))
  (at level 61, c at next level, right associativity) : py_scope.

Declare Scope M_scope.
Delimit Scope M_scope with M.
Notation "x <- c ;; k" := (bind c (fun x => k))
  (at level 61, c at next level, right associativity) : M_scope.
Notation "' p <- c ;; k" := (bind c (fun x => match x with p => k end))
  (at level 61, p pattern, c at next level, right associativity) : M_scope.

(* ===================================================================== *)
(** ** numpy floats *)

Module Np.

Inductive float64 : Type :=
| Fin (r : R)
| PInf
| NInf
| NaN.

Definition Rgtb (a b : R) : bool := if Rlt_dec b a then true else false.
Definition Reqb (a b : R) : bool := if Req_dec_T a b then true else false.

Definition inf (positive : bool) : float64 := if positive then PInf else NInf.

Definition fneg (a : float64) : float64 :=
  match a with
  | Fin r => Fin (- r)
  | PInf => NInf
  | NInf => PInf
  | NaN => NaN
  end.

Definition fadd (a b : float64) : float64 :=
  match a, b with
  | Fin x, Fin y => Fin (x + y)
  | NaN, _ | _, NaN => NaN
  | PInf, NInf | NInf, PInf => NaN
  | PInf, _ | _, PInf => PInf
  | NInf, _ | _, NInf => NInf
  end.

Definition fsub (a b : float64) : float64 := fadd a (fneg b).

Definition fmul (a b : float64) : float64 :=
  match a, b with
  | Fin x, Fin y => Fin (x * y)
  | NaN, _ | _, NaN => NaN
  | Fin x, PInf | PInf, Fin x => if Reqb x 0 then NaN else inf (Rgtb x 0)
  | Fin x, NInf | NInf, Fin x => if Reqb x 0 then NaN else inf (negb (Rgtb x 0))
  | PInf, PInf | NInf, NInf => PInf
  | PInf, NInf | NInf, PInf => NInf
  end.

(** numpy's true division: a zero divisor gives [nan] (for 0/0) or an
    infinity, with a RuntimeWarning and no exception. *)
Definition fdiv (a b : float64) : float64 :=
  match a, b with
  | Fin x, Fin y =>
      if Reqb y 0
      then (if Reqb x 0 then NaN else inf (Rgtb x 0))
      else Fin (x / y)
  | NaN, _ | _, NaN => NaN
  | Fin _, PInf | Fin _, NInf => Fin 0
  | PInf, Fin y => inf (negb (Rgtb 0 y))
  | NInf, Fin y => inf (Rgtb 0 y)
  | PInf, PInf | PInf, NInf | NInf, PInf | NInf, NInf => NaN
  end.

(** [a > b]; false as soon as one side is [nan]. *)
Definition fgtb (a b : float64) : bool :=
  match a, b with
  | Fin x, Fin y => Rgtb x y
  | NaN, _ | _, NaN => false
  | PInf, PInf | NInf, NInf => false
  | PInf, _ | _, NInf => true
  | NInf, _ | _, PInf => false
  end.

Definition sin (a : float64) : float64 :=
  match a with Fin r => Fin (Rtrigo_def.sin r) | _ => NaN end.

Definition cos (a : float64) : float64 :=
  match a with Fin r => Fin (Rtrigo_def.cos r) | _ => NaN end.

Definition arctan (a : float64) : float64 :=
  match a with
  | Fin r => Fin (atan r)
  | PInf => Fin (PI / 2)
  | NInf => Fin (- (PI / 2))
  | NaN => NaN
  end.

(** [np.arccos] is [nan] outside of [-1, 1]. *)
Definition arccos (a : float64) : float64 :=
  match a with
  | Fin r => if Rgtb r 1 || Rgtb (-1) r then NaN else Fin (acos r)
  | _ => NaN
  end.

Definition log (a : float64) : float64 :=
  match a with
  | Fin r => if Rgtb r 0 then Fin (ln r) else if Reqb r 0 then NInf else NaN
  | PInf => PInf
  | _ => NaN
  end.

Definition pi : float64 := Fin PI.

Definition rad2deg (a : float64) : float64 := fmul a (Fin (180 / PI)).

(** A ufunc applied to the positional arguments of a call: [np.power] takes
    two inputs, and any other number of them is a TypeError.  [pow] is its
    value on two inputs. *)
Definition power (pow : float64 -> float64 -> float64) (args : list float64)
  : result float64 :=
  match args with
  | [x1; x2] => Ok (pow x1 x2)
  | _ => Raise TypeError
  end.

(** Python's builtin [sum]: left to right, starting from [0]. *)
Definition sum (l : list float64) : float64 := fold_left fadd l (Fin 0).

(** The sum of finite values, as [sum] computes it. *)
Definition Rsum (l : list R) : R := fold_left Rplus l 0.

(** [array / scalar]. *)
Definition array_div (a : list float64) (s : float64) : list float64 :=
  map (fun x => fdiv x s) a.

(** [a + b] on arrays of one length. *)
Definition array_add (a b : list float64) : list float64 :=
  map (fun p => fadd (fst p) (snd p)) (combine a b).

End Np.
Import Np.

Declare Scope np_scope.
Delimit Scope np_scope with np.
Infix "+" := fadd : np_scope.
Infix "-" := fsub : np_scope.
Infix "*" := fmul : np_scope.
Infix "/" := fdiv : np_scope.
Notation "- x" := (fneg x) : np_scope.

(* ===================================================================== *)
(** ** detector/angular_resolution.py *)

Module AngRes.

(** [icrs_to_unit_vector(ra, dec)]; the array [[x, y, z]] is a list. *)
Definition icrs_to_unit_vector (ra dec : float64) : list float64 :=
  let theta := (pi / Fin 2 - dec)%np in
  let phi := ra in
  let x := (sin theta * cos phi)%np in
  let y := (sin theta * sin phi)%np in
  let z := cos theta in
  [x; y; z].

(** [unit_vector_to_icrs(unit_vector)]: the azimuth is the one-argument
    arctangent of the quotient [y / x]. *)
Definition unit_vector_to_icrs (unit_vector : list float64)
  : result (float64 * float64) :=
  (x <- getitem unit_vector 0 ;;
   y <- getitem unit_vector 1 ;;
   z <- getitem unit_vector 2 ;;
   let phi := arctan (y / x)%np in
   let theta := arccos z in
   let ra := phi in
   let dec := (pi / Fin 2 - theta)%np in
   Ok (ra, dec))%py.

Section AngularResolution.

Variable world : Type.

(** [np.interp(x, xp, fp)], numpy's piecewise-linear interpolation, and the
    value of [np.power] on two inputs. *)
Variable np_interp : float64 -> list float64 -> list float64 -> float64.
Variable np_pow : float64 -> float64 -> float64.

(** [sample_VMF(mu, kappa, n)]: the draw from the dispersion kernel.  The
    module names it and neither defines nor imports it. *)
Variable sample_VMF : list float64 -> float64 -> nat -> M world (list float64).

(** The attributes of an [AngularResolution] that its methods read. *)
Record AngularResolution : Type := {
  values : list float64;
  true_energy_bins : list float64
}.

(** [_get_angular_resolution(self, Etrue)], applied to the positional
    arguments of a call: exactly one is expected. *)
Definition _get_angular_resolution (self : AngularResolution)
  (args : list float64) : result float64 :=
  match args with
  | [Etrue] =>
      let bins := true_energy_bins self in
      let true_energy_bin_cen :=
        array_div (array_add (removelast bins) (tl bins)) (Fin 2) in
      let ang_res :=
        np_interp (log Etrue) (map log true_energy_bin_cen) (values self) in
      Ok ang_res
  | _ => Raise TypeError
  end.

(** Line 121 of [sample]: [kappa = 7552 * np.power(np.rad2deg(ang_res))]. *)
Definition kappa_of (ang_res : float64) : result float64 :=
  (p <- power np_pow [rad2deg ang_res] ;;
   Ok (Fin 7552 * p)%np)%py.

(** [AngularResolution.sample(self, Etrue, ra, dec)].  The resolution lookup
    is called with no argument, as in the source. *)
Definition sample (self : AngularResolution) (Etrue ra dec : float64)
  : M world (float64 * float64) :=
  (let unit_vector := icrs_to_unit_vector ra dec in
   ang_res <- lift (_get_angular_resolution self []) ;;
   kappa <- lift (kappa_of ang_res) ;;
   new_unit_vector <- sample_VMF unit_vector kappa 1 ;;
   lift (unit_vector_to_icrs new_unit_vector))%M.

End AngularResolution.

End AngRes.

(* ===================================================================== *)
(** ** simulator.py *)

Module Sim.

(** Modelled from the spec: the tags [DIFFUSE] and [POINT] that simulator.py
    imports from source_model; a source's spatial type is one of the two. *)
Inductive SourceType : Type := DIFFUSE | POINT.

(** [np.random]: the three draws the simulator makes. *)
Class NumpyRandom (W : Type) : Type := {
  random_poisson : float64 -> M W Z;
  random_choice : forall A : Type, list A -> list float64 -> M W A;
  random_uniform : float64 -> float64 -> M W float64
}.
Arguments random_choice {W _ A} _ _.

(** What the simulator reads of a flux model, a source and the three models
    of a detector. *)
Record FluxModel (W : Type) : Type := {
  _upper_energy : float64;
  _index : float64;
  flux_sample : nat -> M W (list float64)
}.
Arguments _upper_energy {W} _.
Arguments _index {W} _.
Arguments flux_sample {W} _ _.

Record Source (W : Type) : Type := {
  source_type : SourceType;
  flux_model : FluxModel W
}.
Arguments source_type {W} _.
Arguments flux_model {W} _.

Record EffectiveArea (W : Type) : Type := {
  detection_probability : float64 -> float64 -> float64 -> M W float64
}.
Arguments detection_probability {W} _ _ _ _.

Record EnergyResolution (W : Type) : Type := {
  energy_sample : float64 -> M W float64
}.
Arguments energy_sample {W} _ _.

Record AngularResolution (W : Type) : Type := {
  angular_sample : float64 -> float64 -> float64 -> M W (float64 * float64)
}.
Arguments angular_sample {W} _ _ _ _.

Record Detector (W : Type) : Type := {
  effective_area : EffectiveArea W;
  energy_resolution : EnergyResolution W;
  angular_resolution : AngularResolution W
}.
Arguments effective_area {W} _.
Arguments energy_resolution {W} _.
Arguments angular_resolution {W} _.

(** [NeutrinoCalculator(sources, effective_area)(time=..., max_cosz=...)]:
    the expected number of events of each source. *)
Class NeutrinoCalculator (W : Type) : Type := {
  nu_calc :
    list (Source W) -> EffectiveArea W -> float64 -> float64 -> M W (list float64)
}.

(** [SkyCoord(ra*u.rad, dec*u.rad, frame='icrs')]. *)
Record SkyCoord : Type := {
  sc_ra : float64;
  sc_dec : float64
}.

(** The attributes of a [Simulator]. *)
Record Simulator (W : Type) : Type := {
  _sources : list (Source W);
  _detector : Detector W;
  max_cosz : float64;
  time : float64;
  _Nex : list float64;
  _source_weights : list float64;
  N : Z;
  true_energy : list float64;
  reco_energy : list float64;
  coordinate : list SkyCoord;
  ra : list float64;
  dec : list float64;
  source_label : list nat
}.
Arguments _sources {W} _.
Arguments _detector {W} _.
Arguments max_cosz {W} _.
Arguments time {W} _.
Arguments _Nex {W} _.
Arguments _source_weights {W} _.
Arguments N {W} _.
Arguments true_energy {W} _.
Arguments reco_energy {W} _.
Arguments coordinate {W} _.
Arguments ra {W} _.
Arguments dec {W} _.
Arguments source_label {W} _.

(** The local variables of one pass through the body of the [while] loop. *)
Record Trial : Type := {
  t_max_energy : float64;
  t_Etrue : float64;
  t_ra : float64;
  t_dec : float64;
  t_cosz : float64;
  t_detection_prob : float64;
  t_accepted : bool
}.

(** An HDF5 file: its datasets, in the order of their creation. *)
Inductive h5data : Type :=
| H5array (l : list float64)
| H5scalar (x : float64)
| H5tag (t : SourceType).

Definition h5file : Type := list (string * h5data).

(** [spherical_to_icrs(theta, phi)]. *)
Definition spherical_to_icrs (theta phi : float64) : float64 * float64 :=
  let ra := phi in
  let dec := (pi / Fin 2 - theta)%np in
  (ra, dec).

(** The caller's [N]: [None] or an integer. *)
Definition py_not (N : option Z) : bool :=
  match N with
  | None => true
  | Some n => (n =? 0)%Z
  end.

Definition int_ (N : option Z) : Z :=
  match N with
  | Some n => n
  | None => 0%Z
  end.

(** A Python list has none of the attributes that [save] reads. *)
Definition list_getattr {A B : Type} (l : list A) (name : string) : result B :=
  Raise AttributeError.

Section Simulator.

Context {W : Type} {rng : NumpyRandom W} {calc : NeutrinoCalculator W}.

(** [Simulator(sources, detector)]: one source is wrapped into a list. *)
Definition __init__ (sources : Source W + list (Source W)) (detector : Detector W)
  : Simulator W :=
  let sources := match sources with inl s => [s] | inr l => l end in
  {| _sources := sources; _detector := detector;
     max_cosz := Fin 1; time := Fin 1;
     _Nex := []; _source_weights := []; N := 0%Z;
     true_energy := []; reco_energy := []; coordinate := [];
     ra := []; dec := []; source_label := [] |}.

Definition sources (self : Simulator W) : list (Source W) := _sources self.

(** [run] and [save] read an attribute [source]; the class gives the source
    list under the name [sources] only.  In this module [source] is read as
    that list: it is the code with lines 124, 126 and 146 reading
    [self.sources].  The module [Written] has the code with the attribute as
    the class has it. *)
Definition source (self : Simulator W) : list (Source W) := _sources self.

Definition detector (self : Simulator W) : Detector W := _detector self.

Definition set_expected (self : Simulator W) (Nex weights : list float64)
  : Simulator W :=
  {| _sources := _sources self; _detector := _detector self;
     max_cosz := max_cosz self; time := time self;
     _Nex := Nex; _source_weights := weights; N := N self;
     true_energy := true_energy self; reco_energy := reco_energy self;
     coordinate := coordinate self; ra := ra self; dec := dec self;
     source_label := source_label self |}.

(** Lines 107 to 114 of [run]: [self.N] is set and the six lists are emptied. *)
Definition start_catalog (self : Simulator W) (n : Z) : Simulator W :=
  {| _sources := _sources self; _detector := _detector self;
     max_cosz := max_cosz self; time := time self;
     _Nex := _Nex self; _source_weights := _source_weights self; N := n;
     true_energy := []; reco_energy := []; coordinate := [];
     ra := []; dec := []; source_label := [] |}.

(** The five [append] calls of one pass through the [for] loop. *)
Definition append_event (self : Simulator W)
  (Etrue Ereco : float64) (c : SkyCoord) (ra0 dec0 : float64) : Simulator W :=
  {| _sources := _sources self; _detector := _detector self;
     max_cosz := max_cosz self; time := time self;
     _Nex := _Nex self; _source_weights := _source_weights self; N := N self;
     true_energy := true_energy self ++ [Etrue];
     reco_energy := reco_energy self ++ [Ereco];
     coordinate := coordinate self ++ [c];
     ra := ra self ++ [ra0]; dec := dec self ++ [dec0];
     source_label := source_label self |}.

(** [_get_expected_number]. *)
Definition _get_expected_number (self : Simulator W) : M W (Simulator W) :=
  (Nex <- nu_calc (sources self) (effective_area (detector self))
                  (time self) (max_cosz self) ;;
   ret (set_expected self Nex (array_div Nex (sum Nex))))%M.

(** [sphere_sample(radius=1)]. *)
Definition sphere_sample (radius : float64) : M W (float64 * float64) :=
  (u <- random_uniform (Fin 0) (Fin 1) ;;
   v <- random_uniform (Fin 0) (Fin 1) ;;
   let phi := (Fin 2 * pi * u)%np in
   let theta := arccos (Fin 2 * v - Fin 1)%np in
   let '(ra, dec) := spherical_to_icrs theta phi in
   ret (ra, dec))%M.

(** Lines 131 to 137: the detection probability of a thrown neutrino
    ([float(...)] of a float is that float). *)
Definition detection_prob_of (self : Simulator W)
  (Etrue cosz max_energy : float64) : M W float64 :=
  if fgtb cosz (max_cosz self)
  then ret (Fin 0)
  else detection_probability (effective_area (detector self))
         Etrue cosz max_energy.

(** The body of the [while] loop, lines 124 to 139. *)
Definition trial (self : Simulator W) (label : nat) : M W Trial :=
  (src <- lift (getitem (source self) label) ;;
   let max_energy := _upper_energy (flux_model src) in
   Es <- flux_sample (flux_model src) 1 ;;
   Etrue <- lift (getitem Es 0) ;;
   ' (ra, dec) <- sphere_sample (Fin 1) ;;
   let cosz := (- sin dec)%np in
   detection_prob <- detection_prob_of self Etrue cosz max_energy ;;
   accepted <- random_choice [true; false]
                 [detection_prob; (Fin 1 - detection_prob)%np] ;;
   ret {| t_max_energy := max_energy; t_Etrue := Etrue;
          t_ra := ra; t_dec := dec; t_cosz := cosz;
          t_detection_prob := detection_prob; t_accepted := accepted |})%M.

(** [while not accepted]: the source has no bound on the number of passes. *)
Fixpoint rejection_loop (fuel : nat) (self : Simulator W) (label : nat)
  : M W Trial :=
  match fuel with
  | O => fun _ => OutOfFuel
  | S fuel' =>
      (t <- trial self label ;;
       if t_accepted t then ret t else rejection_loop fuel' self label)%M
  end.

(** Lines 141 to 157: what is recorded of an accepted trial.  The five
    [append] calls are made together, once both samplers have answered. *)
Definition record_event (self : Simulator W) (label : nat) (t : Trial)
  : M W (Simulator W) :=
  (Ereco <- energy_sample (energy_resolution (detector self)) (t_Etrue t) ;;
   src <- lift (getitem (source self) label) ;;
   match source_type src with
   | DIFFUSE =>
       ret (append_event self (t_Etrue t) Ereco
              {| sc_ra := t_ra t; sc_dec := t_dec t |} (t_ra t) (t_dec t))
   | POINT =>
       ' (reco_ra, reco_dec) <-
         angular_sample (angular_resolution (detector self))
           (t_Etrue t) (t_ra t) (t_dec t) ;;
       ret (append_event self (t_Etrue t) Ereco
              {| sc_ra := reco_ra; sc_dec := reco_dec |} (t_ra t) (t_dec t))
   end)%M.

(** The body of the [for] loop. *)
Definition event (fuel : nat) (self : Simulator W) : M W (Simulator W) :=
  (label <- random_choice (seq 0 (List.length (sources self)))
              (_source_weights self) ;;
   t <- rejection_loop fuel self label ;;
   record_event self label t)%M.

(** [for i in range(n)]. *)
Fixpoint for_range (n : nat) (body : Simulator W -> M W (Simulator W))
  (self : Simulator W) : M W (Simulator W) :=
  match n with
  | O => ret self
  | S n' => (self' <- body self ;; for_range n' body self')%M
  end.

(** Lines 101 to 107: the number of events of the run. *)
Definition draw_N (self : Simulator W) (N0 : option Z) : M W Z :=
  if py_not N0
  then random_poisson (sum (_Nex self))
  else ret (int_ N0).

(** [run(N=None)]; [fuel] bounds each rejection loop. *)
Definition run (fuel : nat) (self : Simulator W) (N0 : option Z)
  : M W (Simulator W) :=
  (self <- _get_expected_number self ;;
   n <- draw_N self N0 ;;
   let self := start_catalog self n in
   for_range (Z.to_nat n) (event fuel) self)%M.

(** [save(filename)]: the datasets written before the file is closed, and
    the outcome of the call. *)
Definition save (self : Simulator W) (filename : string)
  : h5file * result unit :=
  let f := [] in
  let f := f ++ [("true_energy"%string, H5array (true_energy self))] in
  let f := f ++ [("reco_energy"%string, H5array (reco_energy self))] in
  let f := f ++ [("ra"%string, H5array (ra self))] in
  let f := f ++ [("dec"%string, H5array (dec self))] in
  match list_getattr (source self) "flux_model" with
  | Ok fm =>
      let f := f ++ [("index"%string, H5scalar (_index (W := W) fm))] in
      match list_getattr (source self) "source_type" with
      | Ok st => (f ++ [("source_type"%string, H5tag st)], Ok tt)
      | Raise e => (f, Raise e)
      | OutOfFuel => (f, OutOfFuel)
      end
  | Raise e => (f, Raise e)
  | OutOfFuel => (f, OutOfFuel)
  end.

(** The angular-resolution model of a detector that is an
    [AngularResolution] of detector/angular_resolution.py. *)
Definition from_table
  (np_interp : float64 -> list float64 -> list float64 -> float64)
  (np_pow : float64 -> float64 -> float64)
  (sample_VMF : list float64 -> float64 -> nat -> M W (list float64))
  (table : AngRes.AngularResolution) : AngularResolution W :=
  {| angular_sample := AngRes.sample W np_interp np_pow sample_VMF table |}.

(** [f[name]] on what was written. *)
Fixpoint h5get (f : h5file) (name : string) : option h5data :=
  match f with
  | [] => None
  | (k, d) :: f' => if String.eqb k name then Some d else h5get f' name
  end.

End Simulator.

End Sim.

(* ===================================================================== *)
(** ** The history of a run *)

Module History.
Import Sim.

(** One accepted trial together with what [run] recorded of it. *)
Record Accepted : Type := {
  a_label : nat;
  a_trial : Trial;
  a_Ereco : float64;
  a_coord : SkyCoord
}.

Section History.

Context {W : Type} {rng : NumpyRandom W} {calc : NeutrinoCalculator W}.

(** The two simulators have the same sources, detector and zenith cutoff. *)
Definition same_setup (s1 s2 : Simulator W) : Prop :=
  _sources s1 = _sources s2 /\ _detector s1 = _detector s2 /\
  max_cosz s1 = max_cosz s2.

(** The lists of [self] hold, entry by entry, the true energy, the
    reconstructed energy, the coordinate and the thrown direction of the
    accepted trials [h]. *)
Definition catalog_of (self : Simulator W) (h : list Accepted) : Prop :=
  true_energy self = map (fun a => t_Etrue (a_trial a)) h /\
  reco_energy self = map a_Ereco h /\
  coordinate self = map a_coord h /\
  ra self = map (fun a => t_ra (a_trial a)) h /\
  dec self = map (fun a => t_dec (a_trial a)) h.

(** [t] is the outcome of a pass through the rejection loop for the source
    [label], and it was accepted. *)
Definition accepted_trial (self : Simulator W) (label : nat) (t : Trial) : Prop :=
  t_accepted t = true /\ exists w w', trial self label w = Ok (t, w').

(** The energy-resolution model, asked at [Etrue], answered [Ereco]. *)
Definition energy_sampled (self : Simulator W) (Etrue Ereco : float64) : Prop :=
  exists w w',
    energy_sample (energy_resolution (detector self)) Etrue w = Ok (Ereco, w').

(** The angular-resolution model, asked at [Etrue] and the direction
    [(ra0, dec0)], answered the direction [c]. *)
Definition direction_sampled (self : Simulator W)
  (Etrue ra0 dec0 : float64) (c : SkyCoord) : Prop :=
  exists w w',
    angular_sample (angular_resolution (detector self)) Etrue ra0 dec0 w
    = Ok ((sc_ra c, sc_dec c), w').

(** How the entry [a] came about. *)
Definition genuine (self : Simulator W) (a : Accepted) : Prop :=
  accepted_trial self (a_label a) (a_trial a) /\
  energy_sampled self (t_Etrue (a_trial a)) (a_Ereco a) /\
  exists src,
    getitem (source self) (a_label a) = Ok src /\
    match source_type src with
    | DIFFUSE =>
        a_coord a = {| sc_ra := t_ra (a_trial a); sc_dec := t_dec (a_trial a) |}
    | POINT =>
        direction_sampled self (t_Etrue (a_trial a))
          (t_ra (a_trial a)) (t_dec (a_trial a)) (a_coord a)
    end.

End History.

End History.

(* ===================================================================== *)
(** ** A small deterministic setup *)

Module Demo.
Import Sim.

(** The state counts the random draws made so far. *)
Definition world : Type := nat.

(** Every Poisson draw is 3, every choice the first candidate, every uniform
    draw 1/2. *)
#[export] Instance fixed_random : NumpyRandom world := {|
  random_poisson := fun _ w => Ok (3%Z, S w);
  random_choice := fun A a _ w =>
    match a with
    | x :: _ => Ok (x, S w)
    | [] => Raise ValueError
    end;
  random_uniform := fun _ _ w => Ok (Fin (1 / 2), S w)
|}.

Definition flux : FluxModel world :=
  {| _upper_energy := Fin 1000; _index := Fin 2;
     flux_sample := fun n w => Ok (repeat (Fin 100) n, w) |}.

Definition point_source : Source world :=
  {| source_type := POINT; flux_model := flux |}.

Definition diffuse_source : Source world :=
  {| source_type := DIFFUSE; flux_model := flux |}.

(** Detection is certain, the energy is read one unit too high, the right
    ascension one radian too far. *)
Definition det : Detector world :=
  {| effective_area := {| detection_probability := fun _ _ _ w => Ok (Fin 1, w) |};
     energy_resolution := {| energy_sample := fun E w => Ok ((E + Fin 1)%np, w) |};
     angular_resolution :=
       {| angular_sample := fun _ ra0 dec0 w => Ok (((ra0 + Fin 1)%np, dec0), w) |} |}.

(** A calculator that expects two events of every source, and one that
    expects none. *)
Definition two_each : NeutrinoCalculator world :=
  {| nu_calc := fun srcs _ _ _ w => Ok (map (fun _ => Fin 2) srcs, w) |}.

Definition none_at_all : NeutrinoCalculator world :=
  {| nu_calc := fun srcs _ _ _ w => Ok (map (fun _ => Fin 0) srcs, w) |}.

Definition point_sim : Simulator world := __init__ (inl point_source) det.

Definition diffuse_sim : Simulator world := __init__ (inl diffuse_source) det.

Definition pair_sim : Simulator world :=
  __init__ (inr [point_source; diffuse_source]) det.

(** The pass through the rejection loop that every draw of the setup gives. *)
Definition the_trial : Trial :=
  {| t_max_energy := Fin 1000; t_Etrue := Fin 100;
     t_ra := Fin PI; t_dec := Fin 0; t_cosz := Fin 0;
     t_detection_prob := Fin 1; t_accepted := true |}.

(** The simulator once the expected numbers of a single source are in. *)
Definition expected (s : Simulator world) : Simulator world :=
  set_expected s [Fin 2] (array_div [Fin 2] (sum [Fin 2])).

(** What an accepted trial of the setup appends, for a POINT and for a
    DIFFUSE source. *)
Definition point_event (s : Simulator world) : Simulator world :=
  append_event s (Fin 100) (Fin 101)
    {| sc_ra := Fin (PI + 1); sc_dec := Fin 0 |} (Fin PI) (Fin 0).

Definition diffuse_event (s : Simulator world) : Simulator world :=
  append_event s (Fin 100) (Fin 101)
    {| sc_ra := Fin PI; sc_dec := Fin 0 |} (Fin PI) (Fin 0).

End Demo.

(* ===================================================================== *)
(** ** The rest of detector/angular_resolution.py *)

Module Table.
Import AngRes.

Definition R2018_ANG_RES_FILENAME : string := "AngRes.txt".

(** [sub in s] on two strings. *)
Fixpoint py_in (sub s : string) : bool :=
  if String.prefix sub s then true
  else match s with
       | EmptyString => false
       | String _ s' => py_in sub s'
       end.

(** Line 104 of [_get_angular_resolution]: the centre of every energy bin,
    [(bins[:-1] + bins[1:]) / 2]. *)
Definition bin_centers (bins : list float64) : list float64 :=
  array_div (array_add (removelast bins) (tl bins)) (Fin 2).

(** [a.union(b)] on sets of finite floats: the distinct values of both. *)
Definition set_union (a b : list R) : list R := nodup Req_dec_T (a ++ b).

(** [ndarray.sort()]: ascending. *)
Fixpoint insert_sorted (x : R) (l : list R) : list R :=
  match l with
  | [] => [x]
  | y :: l' => if Rle_dec x y then x :: l else y :: insert_sorted x l'
  end.

Definition ndarray_sort (l : list R) : list R := fold_right insert_sorted [] l.

(** Lines 61 to 67 of [R2018AngResReader.read], applied to the three columns
    that pandas has parsed from the file (finite values, row by row): the
    bin edges are the sorted union of the two energy columns, the resolution
    values are the third column. *)
Definition read_columns (E_min E_max resolution : list R) : AngularResolution :=
  let true_energy_lower := E_min in
  let true_energy_upper := E_max in
  {| values := map Fin resolution;
     true_energy_bins :=
       map Fin (ndarray_sort (set_union true_energy_upper true_energy_lower)) |}.

(** The name [sigma] in [AngularResolution.__init__]: it is no parameter of
    the constructor and no global of the module. *)
Definition sigma_global : result float64 := Raise NameError.

Section Constructor.

(** Reading and parsing the file: [R2018AngResReader(filename)]. *)
Variable R2018AngResReader : string -> result AngularResolution.

(** [AngularResolution.get_reader]. *)
Definition get_reader (filename : string) : result AngularResolution :=
  if py_in R2018_ANG_RES_FILENAME filename
  then R2018AngResReader filename
  else Raise ValueError.

(** [AngularResolution.__init__(filename)]. *)
Definition __init__ (filename : string) : result AngularResolution :=
  (reader <- get_reader filename ;;
   let values0 := values reader in
   let true_energy_bins0 := true_energy_bins reader in
   sigma <- sigma_global ;;
   Ok {| values := values0; true_energy_bins := true_energy_bins0 |})%py.

End Constructor.

End Table.

(* ===================================================================== *)
(** ** The rest of simulator.py *)

Module Lists.

(** A list comprehension whose element expression may raise. *)
Fixpoint comprehension {A B : Type} (f : A -> result B) (l : list A)
  : result (list B) :=
  match l with
  | [] => Ok []
  | x :: l' =>
      (y <- f x ;;
       ys <- comprehension f l' ;;
       Ok (y :: ys))%py
  end.

(** [lists_to_tuple(list1, list2)]. *)
Definition lists_to_tuple {A B : Type} (list1 : list A) (list2 : list B)
  : result (list (A * B)) :=
  comprehension
    (fun i => (a <- getitem list1 i ;; b <- getitem list2 i ;; Ok (a, b))%py)
    (seq 0 (List.length list1)).

End Lists.

(* ===================================================================== *)
(** ** More deterministic setups *)

Module Demo2.
Import Sim Demo.



Definition empty_sim : Simulator world := __init__ (inr []) det.

(** A calculator that cannot tell the number of the first source. *)
Definition undefined_first : NeutrinoCalculator world :=
  {| nu_calc := fun srcs _ _ _ w =>
       Ok (match srcs with [] => [] | _ :: l => NaN :: map (fun _ => Fin 2) l end, w) |}.

End Demo2.

(* ===================================================================== *)
(** ** simulator.py, statement by statement

    The methods of [Simulator] once more, with what [Sim] leaves out: the
    object is kept as a raising call leaves it, every [append] is made where
    the code makes it, the attribute [source] is looked up as the class has
    it, [SkyCoord] and the opening of the file may raise, and the catalogue
    lists exist only once [run] has created them. *)

Module Calls.
Import Sim.

(** A simulator object: its attributes, and whether [run] has created the
    six catalogue lists (the constructor does not). *)
Record Object (W : Type) : Type := {
  attrs : Simulator W;
  has_catalogue : bool
}.
Arguments attrs {W} _.
Arguments has_catalogue {W} _.

(** A method call: from the object and the state of the collaborators to
    the object and the state as the call leaves them, with the value
    returned or the exception raised.  When a collaborator raises, its state
    is taken as it was before the call. *)
Definition Call (W A : Type) : Type :=
  Object W -> W -> Object W * W * result A.

Definition cret {W A} (a : A) : Call W A := fun o w => (o, w, Ok a).

Definition cbind {W A B} (c : Call W A) (k : A -> Call W B) : Call W B :=
  fun o w =>
    match c o w with
    | (o1, w1, Ok a) => k a o1 w1
    | (o1, w1, Raise e) => (o1, w1, Raise e)
    | (o1, w1, OutOfFuel) => (o1, w1, OutOfFuel)
    end.

(** A call into [np.random] or into a collaborator. *)
Definition call {W A} (m : M W A) : Call W A :=
  fun o w =>
    match m w with
    | Ok (a, w1) => (o, w1, Ok a)
    | Raise e => (o, w, Raise e)
    | OutOfFuel => (o, w, OutOfFuel)
    end.

(** An expression that reads no state. *)
Definition pure {W A} (r : result A) : Call W A := fun o w => (o, w, r).

(** The attributes of [self]. *)
Definition self {W} : Call W (Simulator W) := fun o w => (o, w, Ok (attrs o)).

(** An assignment to an attribute, or an [append] to one. *)
Definition assign {W} (f : Simulator W -> Simulator W) : Call W unit :=
  fun o w =>
    ({| attrs := f (attrs o); has_catalogue := has_catalogue o |}, w, Ok tt).

(** The class as written has no attribute [source]: the lookup raises. *)
Definition no_source {W} (s : Simulator W) : result (list (Source W)) :=
  Raise AttributeError.

(** The lookup of [source] read as [sources]. *)
Definition sources_for_source {W} (s : Simulator W) : result (list (Source W)) :=
  Ok (_sources s).

End Calls.

Declare Scope call_scope.
Delimit Scope call_scope with call.
Notation "x <- c ;; k" := (Calls.cbind c (fun x => k))
  (at level 61, c at next level, right associativity) : call_scope.
Notation "c ;;; k" := (Calls.cbind c (fun _ => k))
  (at level 61, right associativity) : call_scope.

Module Written.
Import Sim Calls.

Section Written.

Context {W : Type} {rng : NumpyRandom W} {calc : NeutrinoCalculator W}.

(** The value of the expression [self.source]. *)
Variable source_attr : Simulator W -> result (list (Source W)).

(** [SkyCoord(ra*u.rad, dec*u.rad, frame='icrs')]: astropy's constructor,
    which wraps the longitude and rejects a latitude out of range. *)
Variable make_SkyCoord : float64 -> float64 -> result SkyCoord.

(** [h5py.File(filename, 'w')]: an unwritable path raises. *)
Variable h5py_File : string -> result unit.

(** [self._Nex = Nex]. *)
Definition set_Nex (Nex : list float64) (s : Simulator W) : Simulator W :=
  {| _sources := _sources s; _detector := _detector s;
     max_cosz := max_cosz s; time := time s; _Nex := Nex;
     _source_weights := _source_weights s; N := N s;
     true_energy := true_energy s; reco_energy := reco_energy s;
     coordinate := coordinate s; ra := ra s; dec := dec s;
     source_label := source_label s |}.

(** [self._source_weights = p]. *)
Definition set_source_weights (p : list float64) (s : Simulator W) : Simulator W :=
  {| _sources := _sources s; _detector := _detector s;
     max_cosz := max_cosz s; time := time s; _Nex := _Nex s;
     _source_weights := p; N := N s; true_energy := true_energy s;
     reco_energy := reco_energy s; coordinate := coordinate s; ra := ra s;
     dec := dec s; source_label := source_label s |}.

(** [self.N = n]. *)
Definition set_N (n : Z) (s : Simulator W) : Simulator W :=
  {| _sources := _sources s; _detector := _detector s;
     max_cosz := max_cosz s; time := time s; _Nex := _Nex s;
     _source_weights := _source_weights s; N := n;
     true_energy := true_energy s; reco_energy := reco_energy s;
     coordinate := coordinate s; ra := ra s; dec := dec s;
     source_label := source_label s |}.

(** Lines 109 to 114: the six lists are set to the empty list. *)
Definition clear_lists (s : Simulator W) : Simulator W :=
  {| _sources := _sources s; _detector := _detector s;
     max_cosz := max_cosz s; time := time s; _Nex := _Nex s;
     _source_weights := _source_weights s; N := N s; true_energy := [];
     reco_energy := []; coordinate := []; ra := []; dec := [];
     source_label := [] |}.

(** [self.true_energy.append(x)]. *)
Definition push_true_energy (x : float64) (s : Simulator W) : Simulator W :=
  {| _sources := _sources s; _detector := _detector s;
     max_cosz := max_cosz s; time := time s; _Nex := _Nex s;
     _source_weights := _source_weights s; N := N s;
     true_energy := true_energy s ++ [x]; reco_energy := reco_energy s;
     coordinate := coordinate s; ra := ra s; dec := dec s;
     source_label := source_label s |}.

(** [self.reco_energy.append(x)]. *)
Definition push_reco_energy (x : float64) (s : Simulator W) : Simulator W :=
  {| _sources := _sources s; _detector := _detector s;
     max_cosz := max_cosz s; time := time s; _Nex := _Nex s;
     _source_weights := _source_weights s; N := N s;
     true_energy := true_energy s; reco_energy := reco_energy s ++ [x];
     coordinate := coordinate s; ra := ra s; dec := dec s;
     source_label := source_label s |}.

(** [self.coordinate.append(c)]. *)
Definition push_coordinate (c : SkyCoord) (s : Simulator W) : Simulator W :=
  {| _sources := _sources s; _detector := _detector s;
     max_cosz := max_cosz s; time := time s; _Nex := _Nex s;
     _source_weights := _source_weights s; N := N s;
     true_energy := true_energy s; reco_energy := reco_energy s;
     coordinate := coordinate s ++ [c]; ra := ra s; dec := dec s;
     source_label := source_label s |}.

(** [self.ra.append(x)]. *)
Definition push_ra (x : float64) (s : Simulator W) : Simulator W :=
  {| _sources := _sources s; _detector := _detector s;
     max_cosz := max_cosz s; time := time s; _Nex := _Nex s;
     _source_weights := _source_weights s; N := N s;
     true_energy := true_energy s; reco_energy := reco_energy s;
     coordinate := coordinate s; ra := ra s ++ [x]; dec := dec s;
     source_label := source_label s |}.

(** [self.dec.append(x)]. *)
Definition push_dec (x : float64) (s : Simulator W) : Simulator W :=
  {| _sources := _sources s; _detector := _detector s;
     max_cosz := max_cosz s; time := time s; _Nex := _Nex s;
     _source_weights := _source_weights s; N := N s;
     true_energy := true_energy s; reco_energy := reco_energy s;
     coordinate := coordinate s; ra := ra s; dec := dec s ++ [x];
     source_label := source_label s |}.

Definition getattr_source : Call W (list (Source W)) :=
  fun o w => (o, w, source_attr (attrs o)).

(** [self.source[label]]. *)
Definition source_at (label : nat) : Call W (Source W) :=
  (srcs <- getattr_source ;; pure (getitem srcs label))%call.

(** [_get_expected_number], lines 79 to 83. *)
Definition _get_expected_number : Call W unit :=
  (s <- self ;;
   Nex <- call (nu_calc (sources s) (effective_area (detector s))
                  (time s) (max_cosz s)) ;;
   assign (set_Nex Nex) ;;;
   assign (set_source_weights (array_div Nex (sum Nex))))%call.

(** The body of the [while] loop, lines 124 to 139. *)
Definition trial (label : nat) : Call W Trial :=
  (src <- source_at label ;;
   let max_energy := _upper_energy (flux_model src) in
   src' <- source_at label ;;
   Es <- call (flux_sample (flux_model src') 1) ;;
   Etrue <- pure (getitem Es 0) ;;
   dir <- call (sphere_sample (Fin 1)) ;;
   let cosz := (- sin (snd dir))%np in
   s <- self ;;
   detection_prob <-
     (if fgtb cosz (max_cosz s)
      then cret (Fin 0)
      else call (detection_probability (effective_area (detector s))
                   Etrue cosz max_energy)) ;;
   accepted <- call (random_choice [true; false]
                       [detection_prob; (Fin 1 - detection_prob)%np]) ;;
   cret {| t_max_energy := max_energy; t_Etrue := Etrue;
           t_ra := fst dir; t_dec := snd dir; t_cosz := cosz;
           t_detection_prob := detection_prob; t_accepted := accepted |})%call.

(** [while not accepted]. *)
Fixpoint rejection_loop (fuel : nat) (label : nat) : Call W Trial :=
  match fuel with
  | O => fun o w => (o, w, OutOfFuel)
  | S fuel' =>
      (t <- trial label ;;
       if t_accepted t then cret t else rejection_loop fuel' label)%call
  end.

(** Lines 141 to 157. *)
Definition record_event (label : nat) (t : Trial) : Call W unit :=
  (assign (push_true_energy (t_Etrue t)) ;;;
   s <- self ;;
   Ereco <- call (energy_sample (energy_resolution (detector s)) (t_Etrue t)) ;;
   assign (push_reco_energy Ereco) ;;;
   src <- source_at label ;;
   match source_type src with
   | DIFFUSE =>
       c <- pure (make_SkyCoord (t_ra t) (t_dec t)) ;;
       assign (push_coordinate c) ;;;
       assign (push_ra (t_ra t)) ;;;
       assign (push_dec (t_dec t))
   | POINT =>
       s' <- self ;;
       reco <- call (angular_sample (angular_resolution (detector s'))
                       (t_Etrue t) (t_ra t) (t_dec t)) ;;
       c <- pure (make_SkyCoord (fst reco) (snd reco)) ;;
       assign (push_coordinate c) ;;;
       assign (push_ra (t_ra t)) ;;;
       assign (push_dec (t_dec t))
   end)%call.

(** The body of the [for] loop, lines 118 to 157. *)
Definition event (fuel : nat) : Call W unit :=
  (s <- self ;;
   label <- call (random_choice (seq 0 (List.length (sources s)))
                    (_source_weights s)) ;;
   t <- rejection_loop fuel label ;;
   record_event label t)%call.

Fixpoint for_range (n : nat) (body : Call W unit) : Call W unit :=
  match n with
  | O => cret tt
  | S n' => (body ;;; for_range n' body)%call
  end.

(** Lines 109 to 114. *)
Definition create_lists : Call W unit :=
  fun o w => ({| attrs := clear_lists (attrs o); has_catalogue := true |}, w, Ok tt).

(** [run(N=None)]. *)
Definition run (fuel : nat) (N0 : option Z) : Call W unit :=
  (_get_expected_number ;;;
   s <- self ;;
   n <- (if py_not N0
         then call (random_poisson (sum (_Nex s)))
         else cret (int_ N0)) ;;
   assign (set_N n) ;;;
   create_lists ;;;
   for_range (Z.to_nat n) (event fuel))%call.

(** [save(filename)]: the file as the call leaves it ([None] when it could
    not be opened) and the outcome. *)
Definition save (o : Object W) (filename : string)
  : option h5file * result unit :=
  match h5py_File filename with
  | Ok _ =>
      if has_catalogue o
      then
        let s := attrs o in
        let f := [("true_energy"%string, H5array (true_energy s));
                  ("reco_energy"%string, H5array (reco_energy s));
                  ("ra"%string, H5array (ra s));
                  ("dec"%string, H5array (dec s))] in
        match rbind (source_attr s) (fun srcs => list_getattr srcs "flux_model") with
        | Ok fm =>
            let f := f ++ [("index"%string, H5scalar (_index (W := W) fm))] in
            match rbind (source_attr s)
                    (fun srcs => list_getattr srcs "source_type") with
            | Ok st => (Some (f ++ [("source_type"%string, H5tag st)]), Ok tt)
            | Raise e => (Some f, Raise e)
            | OutOfFuel => (Some f, OutOfFuel)
            end
        | Raise e => (Some f, Raise e)
        | OutOfFuel => (Some f, OutOfFuel)
        end
      else (Some [], Raise AttributeError)
  | Raise e => (None, Raise e)
  | OutOfFuel => (None, OutOfFuel)
  end.

End Written.


(** [Simulator(sources, detector)], lines 28 to 37: no catalogue yet. *)
Definition __init__ {W : Type}
  (sources : Source W + list (Source W)) (detector : Detector W) : Object W :=
  {| attrs := Sim.__init__ sources detector; has_catalogue := false |}.

End Written.

(* ===================================================================== *)
(** ** The weights in rounded arithmetic

    Line 83 of simulator.py once more, with every sum and quotient rounded
    to a double and overflowing to an infinity, where [Np] computes on exact
    reals. *)

Module Fl.
Import Sim.

Section Rounding.

(** The rounding of a real to the nearest double of unbounded exponent, and
    the largest finite double. *)
Variable rnd : R -> R.
Variable Omega : R.

(** The double that an exact result is stored as. *)
Definition round (x : R) : float64 :=
  let r := rnd x in
  if Rgtb r Omega then PInf
  else if Rgtb (- Omega) r then NInf
  else Fin r.

Definition fadd (a b : float64) : float64 :=
  match a, b with
  | Fin x, Fin y => round (x + y)
  | _, _ => Np.fadd a b
  end.

Definition fdiv (a b : float64) : float64 :=
  match a, b with
  | Fin x, Fin y => if Reqb y 0 then Np.fdiv a b else round (x / y)
  | _, _ => Np.fdiv a b
  end.

(** Python's builtin [sum]. *)
Definition sum (l : list float64) : float64 := fold_left fadd l (Fin 0).

(** [array / scalar]. *)
Definition array_div (a : list float64) (s : float64) : list float64 :=
  map (fun x => fdiv x s) a.

(** [np.array(Nex) / sum(Nex)]. *)
Definition source_weights (Nex : list float64) : list float64 :=
  array_div Nex (sum Nex).

Context {W : Type} {calc : NeutrinoCalculator W}.

(** [_get_expected_number]. *)
Definition _get_expected_number (self : Simulator W) : M W (Simulator W) :=
  (Nex <- nu_calc (sources self) (effective_area (detector self))
                  (time self) (max_cosz self) ;;
   ret (set_expected self Nex (source_weights Nex)))%M.

End Rounding.

End Fl.

(* ===================================================================== *)
(** ** Setups for the code as written *)

Module Demo3.
Import Sim Demo Demo2 Calls.

(** A calculator that expects three events of the first source, none of
    the second and one of the third. *)
Definition three_none_one : NeutrinoCalculator world :=
  {| nu_calc := fun _ _ _ _ w => Ok ([Fin 3; Fin 0; Fin 1], w) |}.

Definition triple_sim : Simulator world :=
  Sim.__init__ (inr [point_source; diffuse_source; point_source]) det.

(** Rounding that changes nothing: on the counts 3, 0 and 1 every sum and
    every quotient of line 83 is a double.  Then the largest double, the unit
    roundoff of doubles and half the smallest positive double. *)
Definition exact (x : R) : R := x.

Definition double_max : R := (2 - / 2 ^ 52) * 2 ^ 1023.

Definition unit_roundoff : R := / 2 ^ 53.

(** A calculator that expects the largest double of every source. *)
Definition largest_each : NeutrinoCalculator world :=
  {| nu_calc := fun srcs _ _ _ w => Ok (map (fun _ => Fin double_max) srcs, w) |}.

Definition underflow_unit : R := / 2 ^ 1075.

(** A new simulator with one POINT source. *)
Definition point_obj : Object world := Written.__init__ (inl point_source) det.

(** The same after a [run] that created the lists, about to record
    [the_trial]. *)
Definition point_obj_running : Object world :=
  {| attrs := start_catalog (expected point_sim) 1; has_catalogue := true |}.


(** Every uniform draw is 0, and a choice is the first candidate of non-zero
    probability. *)
Definition south_random : NumpyRandom world := {|
  random_poisson := fun _ w => Ok (3%Z, S w);
  random_choice := fun A a p w =>
    match filter (fun ap => fgtb (snd ap) (Fin 0)) (combine a p) with
    | ap :: _ => Ok (fst ap, S w)
    | [] => Raise ValueError
    end;
  random_uniform := fun _ _ w => Ok (Fin 0, S w)
|}.

(** A detector whose effective area cannot be asked, and a simulator with it
    and with the cutoff lowered: [sim.max_cosz = 0.5]. *)
Definition blind_det : Detector world :=
  {| effective_area :=
       {| detection_probability := fun _ _ _ w => Raise ValueError |};
     energy_resolution := energy_resolution det;
     angular_resolution := angular_resolution det |}.

Definition cutoff_sim : Simulator world :=
  {| _sources := [point_source]; _detector := blind_det;
     max_cosz := Fin (1 / 2); time := Fin 1;
     _Nex := []; _source_weights := []; N := 0%Z;
     true_energy := []; reco_energy := []; coordinate := [];
     ra := []; dec := []; source_label := [] |}.

(** The one pass of [south_random]: thrown at the south pole, above the
    cutoff, rejected. *)
Definition south_trial : Trial :=
  {| t_max_energy := Fin 1000; t_Etrue := Fin 100;
     t_ra := Fin 0; t_dec := Fin (- (PI / 2)); t_cosz := Fin 1;
     t_detection_prob := Fin 0; t_accepted := false |}.

(** [SkyCoord] without wrapping, and a file that opens. *)
Definition plain_SkyCoord (ra0 dec0 : float64) : result SkyCoord :=
  Ok {| sc_ra := ra0; sc_dec := dec0 |}.

Definition opens (filename : string) : result unit := Ok tt.

(** A directory that cannot be written to. *)
Definition unwritable (filename : string) : result unit := Raise OSError.

End Demo3.

(* ===================================================================== *)
(** ** Facts about numpy floats *)

Module NpFacts.

Lemma Reqb_true (a b : R) : a = b -> Reqb a b = true.
Proof. intros H. unfold Reqb. destruct (Req_dec_T a b); [reflexivity | contradiction]. Qed.

Lemma Reqb_false (a b : R) : a <> b -> Reqb a b = false.
Proof. intros H. unfold Reqb. destruct (Req_dec_T a b); [contradiction | reflexivity]. Qed.

Lemma Rgtb_true (a b : R) : b < a -> Rgtb a b = true.
Proof. intros H. unfold Rgtb. destruct (Rlt_dec b a); [reflexivity | contradiction]. Qed.

Lemma Rgtb_false (a b : R) : a <= b -> Rgtb a b = false.
Proof. intros H. unfold Rgtb. destruct (Rlt_dec b a); [lra | reflexivity]. Qed.

Lemma fdiv_Fin (x y : R) : y <> 0 -> (Fin x / Fin y)%np = Fin (x / y).
Proof. intros H. unfold fdiv. now rewrite (Reqb_false _ _ H). Qed.

Lemma fdiv_zero_zero : (Fin 0 / Fin 0)%np = NaN.
Proof. unfold fdiv. now rewrite !Reqb_true. Qed.

Lemma fsub_Fin (x y : R) : (Fin x - Fin y)%np = Fin (x - y).
Proof. reflexivity. Qed.

Lemma fmul_Fin (x y : R) : (Fin x * Fin y)%np = Fin (x * y).
Proof. reflexivity. Qed.

Lemma half_pi : (pi / Fin 2)%np = Fin (PI / 2).
Proof. unfold pi. apply fdiv_Fin. lra. Qed.

Lemma arccos_Fin (r : R) : -1 <= r <= 1 -> arccos (Fin r) = Fin (acos r).
Proof.
  intros [Hlo Hhi]. unfold arccos.
  rewrite (Rgtb_false r 1), (Rgtb_false (-1) r) by assumption. reflexivity.
Qed.

Lemma fold_fadd_Fin (xs : list R) (a : R) :
  fold_left fadd (map Fin xs) (Fin a) = Fin (fold_left Rplus xs a).
Proof.
  revert a. induction xs as [| x xs IH]; intros a; [reflexivity | ].
  cbn. apply IH.
Qed.

Lemma sum_Fin (xs : list R) : sum (map Fin xs) = Fin (Rsum xs).
Proof. apply fold_fadd_Fin. Qed.

Lemma fold_Rplus_scaled (t : R) (xs : list R) (a : R) :
  fold_left Rplus (map (fun x => x / t) xs) (a / t) = fold_left Rplus xs a / t.
Proof.
  revert a. induction xs as [| x xs IH]; intros a; [reflexivity | ].
  cbn. replace (a / t + x / t) with ((a + x) / t) by (unfold Rdiv; ring).
  apply IH.
Qed.

Lemma Rsum_scaled (t : R) (xs : list R) :
  Rsum (map (fun x => x / t) xs) = Rsum xs / t.
Proof.
  unfold Rsum. rewrite <- fold_Rplus_scaled. f_equal. unfold Rdiv. ring.
Qed.

Lemma fold_Rplus_zeros (xs : list R) (a : R) :
  Forall (fun x => x = 0) xs -> fold_left Rplus xs a = a.
Proof.
  intros H. revert a. induction H as [| x xs Hx _ IH]; intros a; [reflexivity | ].
  cbn. rewrite IH. lra.
Qed.

Lemma array_div_Fin (xs : list R) (t : R) :
  t <> 0 ->
  array_div (map Fin xs) (Fin t) = map (fun x => Fin (x / t)) xs.
Proof.
  intros Ht. unfold array_div. rewrite map_map.
  apply map_ext. intros x. now apply fdiv_Fin.
Qed.

Lemma array_div_zeros (xs : list R) :
  Forall (fun x => x = 0) xs ->
  array_div (map Fin xs) (Fin 0) = map (fun _ => NaN) xs.
Proof.
  intros H. unfold array_div. rewrite map_map.
  induction H as [| x xs Hx _ IH]; [reflexivity | ].
  cbn [map]. rewrite IH, Hx, fdiv_zero_zero. reflexivity.
Qed.

End NpFacts.
Import NpFacts.

(* ===================================================================== *)
(** ** Properties of detector/angular_resolution.py *)

Module AngResFacts.
Import AngRes.

Lemma icrs_to_unit_vector_Fin (ra dec : R) :
  icrs_to_unit_vector (Fin ra) (Fin dec)
  = [Fin (Rtrigo_def.cos dec * Rtrigo_def.cos ra);
     Fin (Rtrigo_def.cos dec * Rtrigo_def.sin ra);
     Fin (Rtrigo_def.sin dec)].
Proof.
  unfold icrs_to_unit_vector. rewrite half_pi. cbn.
  replace (PI / 2 + - dec) with (PI / 2 - dec) by lra.
  now rewrite sin_shift, cos_shift.
Qed.

Lemma cos_pos_open (dec : R) : - PI / 2 < dec < PI / 2 -> 0 < Rtrigo_def.cos dec.
Proof. intros [H1 H2]. apply cos_gt_0; lra. Qed.

Lemma dec_recovered (dec : R) :
  - PI / 2 <= dec <= PI / 2 ->
  (pi / Fin 2 - arccos (Fin (Rtrigo_def.sin dec)))%np = Fin dec.
Proof.
  intros [H1 H2]. rewrite half_pi, arccos_Fin by apply SIN_bound.
  cbn. f_equal.
  rewrite <- (cos_shift dec), acos_cos by lra. lra.
Qed.

(** On the half of the sky where [x > 0] the two conversions are inverse to
    each other. *)
Lemma icrs_roundtrip_front_half (ra dec : R) :
  - PI / 2 < ra < PI / 2 -> - PI / 2 < dec < PI / 2 ->
  unit_vector_to_icrs (icrs_to_unit_vector (Fin ra) (Fin dec))
  = Ok (Fin ra, Fin dec).
Proof.
  intros Hra Hdec. rewrite icrs_to_unit_vector_Fin.
  unfold unit_vector_to_icrs. cbn [getitem nth_error rbind].
  pose proof (cos_pos_open dec Hdec) as Hcd.
  pose proof (cos_pos_open ra Hra) as Hcr.
  rewrite fdiv_Fin by nra.
  rewrite dec_recovered by lra.
  cbn [arctan]. do 3 f_equal.
  replace (Rtrigo_def.cos dec * Rtrigo_def.sin ra / (Rtrigo_def.cos dec * Rtrigo_def.cos ra))
    with (tan ra) by (unfold tan; field; lra).
  apply atan_tan. lra.
Qed.

(** C6. On the half of the sky where [x < 0], that is for a right ascension
    between pi/2 and 3pi/2, converting a direction to a unit vector and back
    does not recover it: the declination comes back, the right ascension comes
    back shifted by pi, since the azimuth is taken from the quotient [y / x]
    alone. *)
Theorem icrs_roundtrip_back_half (ra dec : R) :
  PI / 2 < ra < 3 * PI / 2 -> - PI / 2 < dec < PI / 2 ->
  unit_vector_to_icrs (icrs_to_unit_vector (Fin ra) (Fin dec))
  = Ok (Fin (ra - PI), Fin dec).
Proof.
  intros Hra Hdec. rewrite icrs_to_unit_vector_Fin.
  unfold unit_vector_to_icrs. cbn [getitem nth_error rbind].
  pose proof (cos_pos_open dec Hdec) as Hcd.
  assert (Hcr : Rtrigo_def.cos ra < 0) by (apply cos_lt_0; lra).
  rewrite fdiv_Fin by nra.
  rewrite dec_recovered by lra.
  cbn [arctan]. do 3 f_equal.
  assert (Hs : Rtrigo_def.sin ra = - Rtrigo_def.sin (ra - PI)).
  { replace ra with ((ra - PI) + PI) at 1 by lra. apply neg_sin. }
  assert (Hc : Rtrigo_def.cos ra = - Rtrigo_def.cos (ra - PI)).
  { replace ra with ((ra - PI) + PI) at 1 by lra. apply neg_cos. }
  replace (Rtrigo_def.cos dec * Rtrigo_def.sin ra / (Rtrigo_def.cos dec * Rtrigo_def.cos ra))
    with (tan (ra - PI)).
  - apply atan_tan. lra.
  - unfold tan. rewrite Hs, Hc. field. split; [lra | ].
    rewrite Hc in Hcr. lra.
Qed.

Lemma icrs_roundtrip_back_half_at_pi :
  unit_vector_to_icrs (icrs_to_unit_vector (Fin PI) (Fin 0))
  = Ok (Fin (PI - PI), Fin 0).
Proof.
  pose proof PI_RGT_0 as Hpi.
  apply (icrs_roundtrip_back_half PI 0); lra.
Defined.

(** C7. At a pole, where [x = y = 0], the conversion does not raise and the
    right ascension it returns is NaN, the value of [arctan(0 / 0)]; it is
    not 0. *)
Theorem unit_vector_to_icrs_pole (z : float64) :
  unit_vector_to_icrs [Fin 0; Fin 0; z]
  = Ok (NaN, (pi / Fin 2 - arccos z)%np).
Proof.
  unfold unit_vector_to_icrs. cbn [getitem nth_error rbind].
  rewrite fdiv_zero_zero. reflexivity.
Qed.

Lemma unit_vector_to_icrs_north_pole :
  unit_vector_to_icrs [Fin 0; Fin 0; Fin 1] = Ok (NaN, Fin (PI / 2)).
Proof.
  unfold unit_vector_to_icrs. cbn [getitem nth_error rbind].
  rewrite fdiv_zero_zero, half_pi, arccos_Fin by lra.
  rewrite acos_1, fsub_Fin. cbn [arctan]. do 3 f_equal. lra.
Qed.

Section AngularResolution.

Variable world : Type.
Variable np_interp : float64 -> list float64 -> list float64 -> float64.
Variable np_pow : float64 -> float64 -> float64.
Variable sample_VMF : list float64 -> float64 -> nat -> M world (list float64).

(** C8. No concentration parameter is computed: [np.power] is given one
    argument, so line 121 raises a TypeError for every resolution; and
    [sample] raises before it, when it calls the resolution lookup without
    the true energy. *)
Theorem kappa_never_computed :
  (forall ang_res : float64, kappa_of np_pow ang_res = Raise TypeError) /\
  (forall (self : AngularResolution) (Etrue ra dec : float64) (w : world),
      sample world np_interp np_pow sample_VMF self Etrue ra dec w
      = Raise TypeError).
Proof.
  split.
  - intros ang_res. reflexivity.
  - intros self Etrue ra dec w. reflexivity.
Qed.

End AngularResolution.

End AngResFacts.

(* ===================================================================== *)
(** ** Facts about the monad *)

Module PyFacts.

Lemma bind_Ok {W A B} (c : M W A) (k : A -> M W B) (w w' : W) (b : B) :
  bind c k w = Ok (b, w') ->
  exists a w1, c w = Ok (a, w1) /\ k a w1 = Ok (b, w').
Proof.
  unfold bind. destruct (c w) as [[a w1] | e | ]; intros H; try discriminate.
  now exists a, w1.
Qed.

Lemma bind_step {W A B} (c : M W A) (k : A -> M W B) (w w1 : W) (a : A) :
  c w = Ok (a, w1) -> bind c k w = k a w1.
Proof. intros H. unfold bind. now rewrite H. Qed.

Lemma lift_Ok {W A} (c : result A) (w w' : W) (a : A) :
  lift c w = Ok (a, w') -> c = Ok a /\ w' = w.
Proof.
  unfold lift. destruct c; intros H; try discriminate.
  inversion H. now subst.
Qed.

Lemma ret_Ok {W A} (a b : A) (w w' : W) :
  ret a w = Ok (b, w') -> b = a /\ w' = w.
Proof. unfold ret. intros H. inversion H. now subst. Qed.

End PyFacts.
Import PyFacts.

(* ===================================================================== *)
(** ** Properties of simulator.py *)

Module SimFacts.
Import Sim History.

Section Simulator.

Context {W : Type} {rng : NumpyRandom W} {calc : NeutrinoCalculator W}.

(** *** The sphere sampler *)

(** C10. The radius given to [sphere_sample] has no effect: for the same
    uniform draws, any two radii give the same direction. *)
Theorem sphere_sample_ignores_radius (r1 r2 : float64) (w : W) :
  sphere_sample r1 w = sphere_sample r2 w.
Proof. reflexivity. Qed.

(** The direction is the one of the two uniform draws. *)
Lemma sphere_sample_draws (radius u v : float64) (w w1 w2 : W) :
  random_uniform (Fin 0) (Fin 1) w = Ok (u, w1) ->
  random_uniform (Fin 0) (Fin 1) w1 = Ok (v, w2) ->
  sphere_sample radius w
  = Ok ((Fin 2 * pi * u, pi / Fin 2 - arccos (Fin 2 * v - Fin 1))%np, w2).
Proof.
  intros Hu Hv. unfold sphere_sample.
  rewrite (bind_step _ _ _ _ _ Hu), (bind_step _ _ _ _ _ Hv). reflexivity.
Qed.

(** *** The acceptance test *)

(** Above the cutoff the probability is 0 whatever the effective area is,
    and the state is left as it was. *)
Lemma detection_prob_above_cutoff (self : Simulator W)
  (Etrue cosz max_energy : float64) :
  fgtb cosz (max_cosz self) = true ->
  detection_prob_of self Etrue cosz max_energy = ret (Fin 0).
Proof. intros H. unfold detection_prob_of. now rewrite H. Qed.

Lemma detection_prob_below_cutoff (self : Simulator W)
  (Etrue cosz max_energy : float64) :
  fgtb cosz (max_cosz self) = false ->
  detection_prob_of self Etrue cosz max_energy
  = detection_probability (effective_area (detector self)) Etrue cosz max_energy.
Proof. intros H. unfold detection_prob_of. now rewrite H. Qed.

(** With [source] read as [sources]: in a pass through the rejection loop
    that returns, the cos-zenith is [-sin(dec)] of the thrown direction.
    When it exceeds [max_cosz] the acceptance draw is made with probability
    0, directly in the state left by the direction draw: the effective area
    is not asked.  Otherwise the probability is the answer of the effective
    area at the true energy, the cos-zenith and the upper energy bound of the
    source. *)
Lemma trial_detection_probability
  (self : Simulator W) (label : nat) (w w' : W) (t : Trial) :
  trial self label w = Ok (t, w') ->
  t_cosz t = (- sin (t_dec t))%np /\
  exists (src : Source W) (w1 : W),
    getitem (source self) label = Ok src /\
    t_max_energy t = _upper_energy (flux_model src) /\
    (exists w0, sphere_sample (Fin 1) w0 = Ok ((t_ra t, t_dec t), w1)) /\
    (if fgtb (t_cosz t) (max_cosz self)
     then t_detection_prob t = Fin 0 /\
          random_choice [true; false]
            [t_detection_prob t; (Fin 1 - t_detection_prob t)%np] w1
          = Ok (t_accepted t, w')
     else exists w2,
          detection_probability (effective_area (detector self))
            (t_Etrue t) (t_cosz t) (_upper_energy (flux_model src)) w1
          = Ok (t_detection_prob t, w2) /\
          random_choice [true; false]
            [t_detection_prob t; (Fin 1 - t_detection_prob t)%np] w2
          = Ok (t_accepted t, w')).
Proof.
  intros H. unfold trial in H.
  apply bind_Ok in H as (src & w1 & Hsrc & H). apply lift_Ok in Hsrc as [Hsrc ->].
  apply bind_Ok in H as (Es & w2 & HEs & H).
  apply bind_Ok in H as (Etrue & w3 & HE & H). apply lift_Ok in HE as [HE ->].
  apply bind_Ok in H as ([ra0 dec0] & w4 & Hdir & H).
  apply bind_Ok in H as (dp & w5 & Hdp & H).
  apply bind_Ok in H as (acc & w6 & Hacc & H).
  apply ret_Ok in H as [-> ->]. cbn.
  split; [reflexivity | ].
  exists src, w4. repeat split; try assumption.
  - now exists w2.
  - unfold detection_prob_of in Hdp.
    destruct (fgtb (- sin dec0)%np (max_cosz self)).
    + apply ret_Ok in Hdp as [-> ->]. now split.
    + exists w5. now split.
Qed.

(** *** The source weights *)

(** The weights without rounding, on exact reals.  The weight of a source is
    its expected count divided by the sum of all expected counts.  For
    non-negative counts with a positive sum the weights are non-negative, sum
    to 1, and a zero count has weight 0.  When every count is zero the
    weighting raises nothing: it returns, and each weight is NaN, the value of
    [0 / 0].  [FlFacts] has the weights as doubles. *)
Lemma source_weights_normalised
  (self : Simulator W) (w w1 : W) (xs : list R) :
  nu_calc (sources self) (effective_area (detector self))
    (time self) (max_cosz self) w = Ok (map Fin xs, w1) ->
  exists self',
    _get_expected_number self w = Ok (self', w1) /\
    _Nex self' = map Fin xs /\
    _source_weights self' = array_div (map Fin xs) (sum (map Fin xs)) /\
    (Forall (fun x => 0 <= x) xs -> 0 < Rsum xs ->
       _source_weights self' = map (fun x => Fin (x / Rsum xs)) xs /\
       Forall (fun x => 0 <= x / Rsum xs) xs /\
       Rsum (map (fun x => x / Rsum xs) xs) = 1 /\
       forall i, nth_error xs i = Some 0 ->
                 nth_error (_source_weights self') i = Some (Fin 0)) /\
    (Forall (fun x => x = 0) xs ->
       _source_weights self' = map (fun _ => NaN) xs).
Proof.
  intros Hcalc.
  exists (set_expected self (map Fin xs) (array_div (map Fin xs) (sum (map Fin xs)))).
  split; [ | split; [reflexivity | split; [reflexivity | split]]].
  - unfold _get_expected_number. now rewrite (bind_step _ _ _ _ _ Hcalc).
  - intros Hpos Htot. cbn [_source_weights set_expected].
    rewrite sum_Fin, array_div_Fin by lra.
    split; [reflexivity | split; [ | split]].
    + apply Forall_impl with (2 := Hpos). intros x Hx.
      apply Rmult_le_pos; [assumption | ].
      left. now apply Rinv_0_lt_compat.
    + rewrite Rsum_scaled. field. lra.
    + intros i Hi. rewrite nth_error_map, Hi. cbn. f_equal. f_equal.
      unfold Rdiv. ring.
  - intros Hzero. cbn [_source_weights set_expected].
    rewrite sum_Fin. unfold Rsum. rewrite fold_Rplus_zeros by assumption.
    now apply array_div_zeros.
Qed.

(** *** The number of events *)

(** C4. A forced count of 0 is not used: [not N] holds for 0 as it does for
    [None], so the count is drawn from the Poisson distribution, and the run
    is the run without a forced count.  A forced positive count is used. *)
Theorem forced_zero_is_drawn :
  (forall self : Simulator W,
      draw_N self (Some 0%Z) = random_poisson (sum (_Nex self))) /\
  (forall (fuel : nat) (self : Simulator W),
      run fuel self (Some 0%Z) = run fuel self None) /\
  (forall (self : Simulator W) (p : positive),
      draw_N self (Some (Z.pos p)) = ret (Z.pos p)).
Proof. repeat split. Qed.

(** *** The catalogue of a run *)

Lemma same_setup_refl (s : Simulator W) : same_setup s s.
Proof. now repeat split. Qed.

Lemma same_setup_trans (s1 s2 s3 : Simulator W) :
  same_setup s1 s2 -> same_setup s2 s3 -> same_setup s1 s3.
Proof.
  intros (H1 & H2 & H3) (H4 & H5 & H6).
  repeat split; etransitivity; eassumption.
Qed.

Lemma trial_same_setup (s1 s2 : Simulator W) (label : nat) :
  same_setup s1 s2 -> trial s1 label = trial s2 label.
Proof.
  destruct s1, s2. unfold same_setup. cbn. intros (-> & -> & ->). reflexivity.
Qed.

Lemma genuine_same_setup (s1 s2 : Simulator W) (a : Accepted) :
  same_setup s1 s2 -> genuine s2 a -> genuine s1 a.
Proof.
  intros Hs (Ht & He & src & Hsrc & Hdir).
  pose proof (trial_same_setup _ _ (a_label a) Hs) as Htrial.
  destruct Hs as (Hsources & Hdet & Hmax).
  unfold genuine, accepted_trial, energy_sampled, direction_sampled,
    source, detector in *.
  rewrite Htrial, Hsources, Hdet. eauto.
Qed.

Lemma rejection_loop_accepts
  (fuel : nat) (self : Simulator W) (label : nat) (w w' : W) (t : Trial) :
  rejection_loop fuel self label w = Ok (t, w') ->
  accepted_trial self label t.
Proof.
  revert w. induction fuel as [| fuel IH]; intros w H; [discriminate | ].
  cbn [rejection_loop] in H.
  apply bind_Ok in H as (t0 & w1 & Ht0 & H).
  destruct (t_accepted t0) eqn:Hacc.
  - apply ret_Ok in H as [-> ->]. split; [assumption | eauto].
  - eapply IH. eassumption.
Qed.

(** The loop returns with the first accepted pass, whatever budget is left. *)
Lemma rejection_loop_first_accept
  (fuel : nat) (self : Simulator W) (label : nat) (w w' : W) (t : Trial) :
  trial self label w = Ok (t, w') -> t_accepted t = true ->
  rejection_loop (S fuel) self label w = Ok (t, w').
Proof.
  intros Ht Hacc. cbn [rejection_loop].
  rewrite (bind_step _ _ _ _ _ Ht), Hacc. reflexivity.
Qed.

(** A rejected pass costs one unit of the budget. *)
Lemma rejection_loop_retry
  (fuel : nat) (self : Simulator W) (label : nat) (w w' : W) (t : Trial) :
  trial self label w = Ok (t, w') -> t_accepted t = false ->
  rejection_loop (S fuel) self label w = rejection_loop fuel self label w'.
Proof.
  intros Ht Hacc. cbn [rejection_loop].
  rewrite (bind_step _ _ _ _ _ Ht), Hacc. reflexivity.
Qed.

(** What one pass through the [for] loop appends. *)
Lemma event_appends (fuel : nat) (self self' : Simulator W) (w w' : W) :
  event fuel self w = Ok (self', w') ->
  exists a : Accepted,
    genuine self a /\
    self' = append_event self (t_Etrue (a_trial a)) (a_Ereco a) (a_coord a)
              (t_ra (a_trial a)) (t_dec (a_trial a)).
Proof.
  intros H. unfold event in H.
  apply bind_Ok in H as (label & w1 & _ & H).
  apply bind_Ok in H as (t & w2 & Hloop & H).
  apply rejection_loop_accepts in Hloop.
  unfold record_event in H.
  apply bind_Ok in H as (Ereco & w3 & HE & H).
  apply bind_Ok in H as (src & w4 & Hsrc & H).
  apply lift_Ok in Hsrc as [Hsrc ->].
  destruct (source_type src) eqn:Htype.
  - apply ret_Ok in H as [-> ->].
    exists {| a_label := label; a_trial := t; a_Ereco := Ereco;
              a_coord := {| sc_ra := t_ra t; sc_dec := t_dec t |} |}.
    split; [ | reflexivity].
    split; [assumption | split; [now exists w2, w3 | ]].
    exists src. split; [assumption | ]. cbn. now rewrite Htype.
  - apply bind_Ok in H as ([reco_ra reco_dec] & w5 & Hang & H).
    apply ret_Ok in H as [-> ->].
    exists {| a_label := label; a_trial := t; a_Ereco := Ereco;
              a_coord := {| sc_ra := reco_ra; sc_dec := reco_dec |} |}.
    split; [ | reflexivity].
    split; [assumption | split; [now exists w2, w3 | ]].
    exists src. split; [assumption | ]. cbn. rewrite Htype.
    now exists w3, w5.
Qed.

Lemma catalog_of_append (self : Simulator W) (h : list Accepted) (a : Accepted) :
  catalog_of self h ->
  catalog_of
    (append_event self (t_Etrue (a_trial a)) (a_Ereco a) (a_coord a)
       (t_ra (a_trial a)) (t_dec (a_trial a)))
    (h ++ [a]).
Proof.
  intros (H1 & H2 & H3 & H4 & H5). unfold catalog_of. cbn.
  rewrite !map_app, H1, H2, H3, H4, H5. now repeat split.
Qed.

(** The invariant of the [for] loop. *)
Lemma for_range_history (fuel n : nat) (self0 : Simulator W) :
  forall (self self' : Simulator W) (w w' : W) (h : list Accepted),
    for_range n (event fuel) self w = Ok (self', w') ->
    same_setup self0 self -> catalog_of self h -> Forall (genuine self0) h ->
    exists h',
      List.length h' = (List.length h + n)%nat /\
      same_setup self0 self' /\ catalog_of self' h' /\
      Forall (genuine self0) h' /\
      source_label self' = source_label self /\ N self' = N self.
Proof.
  induction n as [| n IH]; intros self self' w w' h Hrun Hs Hcat Hgen.
  - apply ret_Ok in Hrun as [-> ->]. exists h.
    rewrite Nat.add_0_r.
    exact (conj eq_refl (conj Hs (conj Hcat (conj Hgen (conj eq_refl eq_refl))))).
  - cbn [for_range] in Hrun.
    apply bind_Ok in Hrun as (self1 & w1 & Hev & Hrun).
    apply event_appends in Hev as (a & Ha & ->).
    eapply IH with (h := h ++ [a]) in Hrun.
    + destruct Hrun as (h' & Hlen & Hs' & Hcat' & Hgen' & Hlab & HN).
      exists h'. rewrite length_app in Hlen. cbn [List.length] in Hlen.
      refine (conj _ (conj Hs' (conj Hcat' (conj Hgen' (conj Hlab HN))))).
      lia.
    + destruct Hs as (H1 & H2 & H3). exact (conj H1 (conj H2 H3)).
    + now apply catalog_of_append.
    + apply Forall_app. split; [assumption | ].
      constructor; [ | constructor].
      now apply genuine_same_setup with (2 := Ha).
Qed.

(** A run that returns leaves a catalogue of [N] genuine entries, and the
    list of source labels as empty as it was initialised. *)
Lemma run_history
  (fuel : nat) (self self' : Simulator W) (N0 : option Z) (w w' : W) :
  run fuel self N0 w = Ok (self', w') ->
  exists h : list Accepted,
    List.length h = Z.to_nat (N self') /\
    catalog_of self' h /\ Forall (genuine self) h /\
    source_label self' = [] /\
    (py_not N0 = false -> N self' = int_ N0).
Proof.
  intros H. unfold run in H.
  apply bind_Ok in H as (self1 & w1 & Hexp & H).
  apply bind_Ok in H as (n & w2 & Hn & H).
  unfold _get_expected_number in Hexp.
  apply bind_Ok in Hexp as (Nex & w0 & _ & Hexp).
  apply ret_Ok in Hexp as [-> ->].
  eapply for_range_history with (self0 := self) (h := []) in H.
  - destruct H as (h & Hlen & _ & Hcat & Hgen & Hlab & HN).
    exists h. cbn in Hlen, Hlab, HN. rewrite HN.
    refine (conj Hlen (conj Hcat (conj Hgen (conj Hlab _)))).
    intros Hforced. unfold draw_N in Hn. rewrite Hforced in Hn.
    now apply ret_Ok in Hn as [-> _].
  - exact (conj eq_refl (conj eq_refl eq_refl)).
  - exact (conj eq_refl (conj eq_refl (conj eq_refl (conj eq_refl eq_refl)))).
  - constructor.
Qed.

Lemma nth_error_map_Some {A B} (f : A -> B) (l : list A) (i : nat) (b : B) :
  nth_error (map f l) i = Some b ->
  exists a, nth_error l i = Some a /\ f a = b.
Proof.
  rewrite nth_error_map. destruct (nth_error l i) as [a | ]; cbn; intros H;
    [ | discriminate].
  inversion H. now exists a.
Qed.

(** With [source] read as [sources]: in the catalogue of a run that
    returns, every entry comes from an
    accepted trial of some source: its true energy is the one of the trial;
    its reconstructed energy is the answer of the energy-resolution model at
    that true energy; for a DIFFUSE source its coordinate is the thrown
    direction of the trial, and for a POINT source it is the answer of the
    detector's angular-resolution sampler at the true energy and the thrown
    direction of that same trial. *)
Lemma run_reconstruction
  (fuel : nat) (self self' : Simulator W) (N0 : option Z) (w w' : W) :
  run fuel self N0 w = Ok (self', w') ->
  forall (i : nat) (Etrue Ereco : float64) (c : SkyCoord),
    nth_error (true_energy self') i = Some Etrue ->
    nth_error (reco_energy self') i = Some Ereco ->
    nth_error (coordinate self') i = Some c ->
    exists (label : nat) (src : Source W) (t : Trial),
      getitem (source self) label = Ok src /\
      accepted_trial self label t /\
      t_Etrue t = Etrue /\
      energy_sampled self Etrue Ereco /\
      match source_type src with
      | DIFFUSE => c = {| sc_ra := t_ra t; sc_dec := t_dec t |}
      | POINT => direction_sampled self Etrue (t_ra t) (t_dec t) c
      end.
Proof.
  intros Hrun i Etrue Ereco c HE HR HC.
  apply run_history in Hrun as (h & _ & Hcat & Hgen & _).
  destruct Hcat as (H1 & H2 & H3 & _).
  rewrite H1 in HE. rewrite H2 in HR. rewrite H3 in HC.
  apply nth_error_map_Some in HE as (a & Ha & HE).
  apply nth_error_map_Some in HR as (a1 & Ha1 & HR).
  apply nth_error_map_Some in HC as (a2 & Ha2 & HC).
  assert (a1 = a) by congruence. assert (a2 = a) by congruence. subst a1 a2.
  rewrite Forall_forall in Hgen.
  destruct (Hgen a (nth_error_In _ _ Ha)) as (Ht & Hen & src & Hsrc & Hdir).
  exists (a_label a), src, (a_trial a).
  rewrite <- HE, <- HR, <- HC.
  exact (conj Hsrc (conj Ht (conj eq_refl (conj Hen Hdir)))).
Qed.

(** C5. After a run that returns, the lists of true energies, reconstructed
    energies, right ascensions and declinations (and of coordinates) each have
    [N] entries, with [N] the caller's count when one was forced; the list of
    source labels has none: [run] never appends to it. *)
Theorem run_catalog_lengths
  (fuel : nat) (self self' : Simulator W) (N0 : option Z) (w w' : W) :
  run fuel self N0 w = Ok (self', w') ->
  List.length (true_energy self') = Z.to_nat (N self') /\
  List.length (reco_energy self') = Z.to_nat (N self') /\
  List.length (coordinate self') = Z.to_nat (N self') /\
  List.length (ra self') = Z.to_nat (N self') /\
  List.length (dec self') = Z.to_nat (N self') /\
  source_label self' = [] /\
  (py_not N0 = false -> N self' = int_ N0).
Proof.
  intros Hrun.
  apply run_history in Hrun as (h & Hlen & Hcat & _ & Hlab & HN).
  destruct Hcat as (H1 & H2 & H3 & H4 & H5).
  rewrite H1, H2, H3, H4, H5, !length_map.
  exact (conj Hlen (conj Hlen (conj Hlen (conj Hlen (conj Hlen (conj Hlab HN)))))).
Qed.

(** With [source] read as [sources]: in the catalogue of a run that
    returns, the entries of [ra] and [dec] are the thrown direction of the
    accepted trial, also for a POINT source, whose smeared direction is the
    entry of [coordinate]; and [save] writes these [ra] and [dec] lists. *)
Lemma run_keeps_thrown_direction
  (fuel : nat) (self self' : Simulator W) (N0 : option Z) (w w' : W) :
  run fuel self N0 w = Ok (self', w') ->
  (forall (i : nat) (c : SkyCoord) (ra_i dec_i : float64),
      nth_error (coordinate self') i = Some c ->
      nth_error (ra self') i = Some ra_i ->
      nth_error (dec self') i = Some dec_i ->
      exists (label : nat) (src : Source W) (t : Trial),
        getitem (source self) label = Ok src /\
        accepted_trial self label t /\
        ra_i = t_ra t /\ dec_i = t_dec t /\
        (source_type src = POINT ->
         direction_sampled self (t_Etrue t) (t_ra t) (t_dec t) c)) /\
  (forall filename : string,
      h5get (fst (save self' filename)) "ra" = Some (H5array (ra self')) /\
      h5get (fst (save self' filename)) "dec" = Some (H5array (dec self'))).
Proof.
  intros Hrun. split; [ | intros filename; split; reflexivity].
  intros i c ra_i dec_i HC HR HD.
  apply run_history in Hrun as (h & _ & Hcat & Hgen & _).
  destruct Hcat as (_ & _ & H3 & H4 & H5).
  rewrite H3 in HC. rewrite H4 in HR. rewrite H5 in HD.
  apply nth_error_map_Some in HC as (a & Ha & HC).
  apply nth_error_map_Some in HR as (a1 & Ha1 & HR).
  apply nth_error_map_Some in HD as (a2 & Ha2 & HD).
  assert (a1 = a) by congruence. assert (a2 = a) by congruence. subst a1 a2.
  rewrite Forall_forall in Hgen.
  destruct (Hgen a (nth_error_In _ _ Ha)) as (Ht & _ & src & Hsrc & Hdir).
  exists (a_label a), src, (a_trial a).
  refine (conj Hsrc (conj Ht (conj (eq_sym HR) (conj (eq_sym HD) _)))).
  intros Hpoint. rewrite Hpoint in Hdir. now rewrite <- HC.
Qed.

(** With the [AngularResolution] of this repository in the detector, an
    accepted trial of a POINT source is not recorded: the sampler raises. *)
Lemma record_event_point_raises
  (np_interp : float64 -> list float64 -> list float64 -> float64)
  (np_pow : float64 -> float64 -> float64)
  (sample_VMF : list float64 -> float64 -> nat -> M W (list float64))
  (table : AngRes.AngularResolution)
  (self : Simulator W) (label : nat) (src : Source W) (t : Trial)
  (Ereco : float64) (w w1 : W) :
  angular_resolution (detector self)
  = from_table np_interp np_pow sample_VMF table ->
  getitem (source self) label = Ok src ->
  source_type src = POINT ->
  energy_sample (energy_resolution (detector self)) (t_Etrue t) w = Ok (Ereco, w1) ->
  record_event self label t w = Raise TypeError.
Proof.
  intros Hang Hsrc Htype HE. unfold record_event.
  rewrite (bind_step _ _ _ _ _ HE), Hsrc.
  erewrite bind_step by reflexivity.
  rewrite Htype, Hang. reflexivity.
Qed.

(** [save] raises after the four lists are written: the source list has no
    attribute [flux_model]. *)
Lemma save_outcome (self : Simulator W) (filename : string) :
  save self filename
  = ([("true_energy"%string, H5array (true_energy self));
      ("reco_energy"%string, H5array (reco_energy self));
      ("ra"%string, H5array (ra self));
      ("dec"%string, H5array (dec self))],
     Raise AttributeError).
Proof. reflexivity. Qed.

End Simulator.

End SimFacts.

(* ===================================================================== *)
(** ** The deterministic setup at work *)

Module DemoFacts.
Import Sim History SimFacts Demo.

Lemma demo_sphere_sample (radius : float64) (w : world) :
  sphere_sample radius w = Ok ((Fin PI, Fin 0), S (S w)).
Proof.
  rewrite (sphere_sample_draws radius (Fin (1 / 2)) (Fin (1 / 2)) w (S w) (S (S w)))
    by reflexivity.
  rewrite half_pi. unfold pi. rewrite !fmul_Fin, fsub_Fin.
  replace (2 * (1 / 2) - 1) with 0 by lra.
  rewrite arccos_Fin by lra. rewrite acos_0, fsub_Fin.
  do 3 f_equal; [f_equal; lra | f_equal; lra].
Qed.

Lemma demo_trial (s : Simulator world) (st : SourceType)
  (rest : list (Source world)) (w : world) :
  _sources s = {| source_type := st; flux_model := flux |} :: rest ->
  _detector s = det -> max_cosz s = Fin 1 ->
  trial s 0 w = Ok (the_trial, S (S (S w))).
Proof.
  intros Hsrc Hdet Hmax. unfold trial, detection_prob_of, source, detector.
  rewrite Hsrc, Hdet, Hmax.
  erewrite bind_step by reflexivity.
  erewrite bind_step by reflexivity.
  erewrite bind_step by reflexivity.
  erewrite bind_step by apply demo_sphere_sample.
  cbn [sin fneg]. rewrite sin_0, Ropp_0.
  cbn [fgtb]. rewrite Rgtb_false by lra.
  erewrite bind_step by reflexivity.
  erewrite bind_step by reflexivity.
  reflexivity.
Qed.

Lemma demo_rejection_loop (fuel : nat) (s : Simulator world) (st : SourceType)
  (rest : list (Source world)) (w : world) :
  _sources s = {| source_type := st; flux_model := flux |} :: rest ->
  _detector s = det -> max_cosz s = Fin 1 ->
  rejection_loop (S fuel) s 0 w = Ok (the_trial, S (S (S w))).
Proof.
  intros Hsrc Hdet Hmax. cbn [rejection_loop].
  erewrite bind_step by (eapply demo_trial; eassumption).
  reflexivity.
Qed.

(** One pass through the [for] loop, for a POINT and for a DIFFUSE source. *)
Lemma demo_event_point (fuel : nat) (s : Simulator world) (w : world) :
  _sources s = [point_source] -> _detector s = det -> max_cosz s = Fin 1 ->
  event (S fuel) s w = Ok (point_event s, S (S (S (S w)))).
Proof.
  intros Hsrc Hdet Hmax. unfold event, sources.
  rewrite Hsrc.
  erewrite bind_step by reflexivity.
  erewrite bind_step by (eapply demo_rejection_loop; eassumption).
  unfold record_event, source, detector. rewrite Hsrc, Hdet.
  erewrite bind_step by reflexivity.
  erewrite bind_step by reflexivity.
  cbn [source_type point_source].
  erewrite bind_step by reflexivity.
  unfold ret, point_event. cbn [the_trial t_Etrue t_ra t_dec fadd].
  do 4 f_equal; f_equal; lra.
Qed.

Lemma demo_event_diffuse (fuel : nat) (s : Simulator world) (w : world) :
  _sources s = [diffuse_source] -> _detector s = det -> max_cosz s = Fin 1 ->
  event (S fuel) s w = Ok (diffuse_event s, S (S (S (S w)))).
Proof.
  intros Hsrc Hdet Hmax. unfold event, sources.
  rewrite Hsrc.
  erewrite bind_step by reflexivity.
  erewrite bind_step by (eapply demo_rejection_loop; eassumption).
  unfold record_event, source, detector. rewrite Hsrc, Hdet.
  erewrite bind_step by reflexivity.
  erewrite bind_step by reflexivity.
  cbn [source_type diffuse_source].
  unfold ret, diffuse_event. cbn [the_trial t_Etrue t_ra t_dec fadd].
  do 4 f_equal; f_equal; lra.
Qed.

(** Three runs of the setup: one POINT event, one DIFFUSE event, and a
    forced count of 0, which the Poisson draw replaces by 3. *)
Lemma demo_run_point :
  run (calc := two_each) 1 point_sim (Some 1%Z) 0%nat
  = Ok (point_event (start_catalog (expected point_sim) 1), 4%nat).
Proof.
  unfold run.
  erewrite bind_step by reflexivity.
  erewrite bind_step by reflexivity.
  change (for_range 1 (event 1) (start_catalog (expected point_sim) 1) 0%nat
          = Ok (point_event (start_catalog (expected point_sim) 1), 4%nat)).
  cbn [for_range].
  erewrite bind_step by (apply demo_event_point; reflexivity).
  reflexivity.
Qed.

Lemma demo_run_diffuse :
  run (calc := two_each) 1 diffuse_sim (Some 1%Z) 0%nat
  = Ok (diffuse_event (start_catalog (expected diffuse_sim) 1), 4%nat).
Proof.
  unfold run.
  erewrite bind_step by reflexivity.
  erewrite bind_step by reflexivity.
  change (for_range 1 (event 1) (start_catalog (expected diffuse_sim) 1) 0%nat
          = Ok (diffuse_event (start_catalog (expected diffuse_sim) 1), 4%nat)).
  cbn [for_range].
  erewrite bind_step by (apply demo_event_diffuse; reflexivity).
  reflexivity.
Qed.

Lemma demo_run_forced_zero :
  run (calc := two_each) 1 point_sim (Some 0%Z) 0%nat
  = Ok (point_event (point_event (point_event
          (start_catalog (expected point_sim) 3))), 13%nat).
Proof.
  unfold run.
  erewrite bind_step by reflexivity.
  erewrite bind_step by reflexivity.
  change (for_range 3 (event 1) (start_catalog (expected point_sim) 3) 1%nat
          = Ok (point_event (point_event (point_event
                  (start_catalog (expected point_sim) 3))), 13%nat)).
  cbn [for_range].
  erewrite bind_step by (apply demo_event_point; reflexivity).
  erewrite bind_step by (apply demo_event_point; reflexivity).
  erewrite bind_step by (apply demo_event_point; reflexivity).
  reflexivity.
Qed.

Lemma demo_forced_zero_catalog :
  exists s' w',
    run (calc := two_each) 1 point_sim (Some 0%Z) 0%nat = Ok (s', w') /\
    N s' = 3%Z /\ true_energy s' = [Fin 100; Fin 100; Fin 100].
Proof.
  eexists _, _. split; [apply demo_run_forced_zero | ]. split; reflexivity.
Qed.

(** With a calculator that expects no event of any source, the weighting
    returns: its weights are NaN, and nothing is raised. *)
Lemma zero_counts_raise_nothing :
  _get_expected_number (calc := none_at_all) pair_sim 0%nat
  = Ok (set_expected pair_sim [Fin 0; Fin 0] [NaN; NaN], 0%nat) /\
  ~ (exists e, _get_expected_number (calc := none_at_all) pair_sim 0%nat = Raise e).
Proof.
  assert (H : _get_expected_number (calc := none_at_all) pair_sim 0%nat
              = Ok (set_expected pair_sim [Fin 0; Fin 0] [NaN; NaN], 0%nat)).
  { unfold _get_expected_number.
    erewrite bind_step by reflexivity.
    change (map (fun _ : Source world => Fin 0) (sources pair_sim))
      with (map Fin [0; 0]).
    rewrite sum_Fin. unfold Rsum. rewrite fold_Rplus_zeros by (repeat constructor).
    rewrite array_div_zeros by (repeat constructor). reflexivity. }
  split; [exact H | ]. intros [e He]. rewrite H in He. discriminate.
Qed.

Lemma run_reconstruction_witness :
  exists (label : nat) (src : Source world) (t : Trial),
    getitem (source diffuse_sim) label = Ok src /\
    accepted_trial diffuse_sim label t /\
    t_Etrue t = Fin 100 /\
    energy_sampled diffuse_sim (Fin 100) (Fin 101) /\
    match source_type src with
    | DIFFUSE =>
        {| sc_ra := Fin PI; sc_dec := Fin 0 |}
        = {| sc_ra := t_ra t; sc_dec := t_dec t |}
    | POINT =>
        direction_sampled diffuse_sim (Fin 100) (t_ra t) (t_dec t)
          {| sc_ra := Fin PI; sc_dec := Fin 0 |}
    end.
Proof.
  exact (run_reconstruction (calc := two_each) 1 diffuse_sim _ (Some 1%Z)
           0%nat 4%nat demo_run_diffuse 0%nat (Fin 100) (Fin 101)
           {| sc_ra := Fin PI; sc_dec := Fin 0 |} eq_refl eq_refl eq_refl).
Defined.

Lemma trial_detection_probability_witness :
  t_cosz the_trial = (- sin (t_dec the_trial))%np /\
  exists (src : Source world) (w1 : world),
    getitem (source point_sim) 0 = Ok src /\
    t_max_energy the_trial = _upper_energy (flux_model src) /\
    (exists w0, sphere_sample (Fin 1) w0
                = Ok ((t_ra the_trial, t_dec the_trial), w1)) /\
    (if fgtb (t_cosz the_trial) (max_cosz point_sim)
     then t_detection_prob the_trial = Fin 0 /\
          random_choice [true; false]
            [t_detection_prob the_trial; (Fin 1 - t_detection_prob the_trial)%np] w1
          = Ok (t_accepted the_trial, 3%nat)
     else exists w2,
          detection_probability (effective_area (detector point_sim))
            (t_Etrue the_trial) (t_cosz the_trial)
            (_upper_energy (flux_model src)) w1
          = Ok (t_detection_prob the_trial, w2) /\
          random_choice [true; false]
            [t_detection_prob the_trial; (Fin 1 - t_detection_prob the_trial)%np] w2
          = Ok (t_accepted the_trial, 3%nat)).
Proof.
  exact (trial_detection_probability point_sim 0 0%nat 3%nat the_trial
           (demo_trial point_sim POINT [] 0%nat eq_refl eq_refl eq_refl)).
Defined.

Lemma source_weights_normalised_witness :
  exists self',
    _get_expected_number (calc := two_each) point_sim 0%nat = Ok (self', 0%nat) /\
    _Nex self' = [Fin 2] /\
    _source_weights self' = array_div [Fin 2] (sum [Fin 2]) /\
    (Forall (fun x => 0 <= x) [2] -> 0 < Rsum [2] ->
       _source_weights self' = [Fin (2 / Rsum [2])] /\
       Forall (fun x => 0 <= x / Rsum [2]) [2] /\
       Rsum [2 / Rsum [2]] = 1 /\
       forall i, nth_error [2] i = Some 0 ->
                 nth_error (_source_weights self') i = Some (Fin 0)) /\
    (Forall (fun x => x = 0) [2] -> _source_weights self' = [NaN]).
Proof.
  exact (source_weights_normalised (calc := two_each) point_sim 0%nat 0%nat [2]
           eq_refl).
Defined.

Lemma run_catalog_lengths_witness :
  let s' := point_event (start_catalog (expected point_sim) 1) in
  List.length (true_energy s') = Z.to_nat (N s') /\
  List.length (reco_energy s') = Z.to_nat (N s') /\
  List.length (coordinate s') = Z.to_nat (N s') /\
  List.length (ra s') = Z.to_nat (N s') /\
  List.length (dec s') = Z.to_nat (N s') /\
  source_label s' = [] /\
  (py_not (Some 1%Z) = false -> N s' = int_ (Some 1%Z)).
Proof.
  exact (run_catalog_lengths (calc := two_each) 1 point_sim _ (Some 1%Z)
           0%nat 4%nat demo_run_point).
Defined.

Lemma run_keeps_thrown_direction_witness :
  let s' := point_event (start_catalog (expected point_sim) 1) in
  (forall (i : nat) (c : SkyCoord) (ra_i dec_i : float64),
      nth_error (coordinate s') i = Some c ->
      nth_error (ra s') i = Some ra_i ->
      nth_error (dec s') i = Some dec_i ->
      exists (label : nat) (src : Source world) (t : Trial),
        getitem (source point_sim) label = Ok src /\
        accepted_trial point_sim label t /\
        ra_i = t_ra t /\ dec_i = t_dec t /\
        (source_type src = POINT ->
         direction_sampled point_sim (t_Etrue t) (t_ra t) (t_dec t) c)) /\
  (forall filename : string,
      h5get (fst (save s' filename)) "ra" = Some (H5array (ra s')) /\
      h5get (fst (save s' filename)) "dec" = Some (H5array (dec s'))).
Proof.
  exact (run_keeps_thrown_direction (calc := two_each) 1 point_sim _ (Some 1%Z)
           0%nat 4%nat demo_run_point).
Defined.

(** In that run the catalogue keeps the thrown right ascension pi, and the
    coordinate holds the smeared one, pi + 1. *)
Lemma demo_point_catalog :
  let s' := point_event (start_catalog (expected point_sim) 1) in
  ra s' = [Fin PI] /\ dec s' = [Fin 0] /\
  coordinate s' = [{| sc_ra := Fin (PI + 1); sc_dec := Fin 0 |}] /\
  source_label s' = [].
Proof. repeat split. Qed.

End DemoFacts.

(* ===================================================================== *)
(** ** More properties of the coordinate conversions *)

Module ConversionFacts.
Import AngRes AngResFacts.

(** X1. The vector of a finite direction has unit length. *)
Theorem icrs_to_unit_vector_norm (ra dec : R) :
  exists x y z : R,
    icrs_to_unit_vector (Fin ra) (Fin dec) = [Fin x; Fin y; Fin z] /\
    x * x + y * y + z * z = 1.
Proof.
  rewrite icrs_to_unit_vector_Fin. eexists _, _, _. split; [reflexivity | ].
  pose proof (sin2_cos2 ra) as Hra. pose proof (sin2_cos2 dec) as Hdec.
  unfold Rsqr in Hra, Hdec. nra.
Qed.

(** X4. Whatever the vector, when [x] is a number other than 0 the right
    ascension is a number from -pi/2 to pi/2: half of the circle is never
    returned. *)
Theorem unit_vector_to_icrs_ra_range (x y : R) (z : float64) :
  x <> 0 ->
  exists (r : R) (d : float64),
    unit_vector_to_icrs [Fin x; Fin y; z] = Ok (Fin r, d) /\
    - PI / 2 <= r <= PI / 2.
Proof.
  intros Hx. unfold unit_vector_to_icrs. cbn [getitem nth_error rbind].
  rewrite fdiv_Fin by assumption. cbn [arctan].
  eexists _, _. split; [reflexivity | ].
  pose proof (atan_bound (y / x)) as Hb. lra.
Qed.

Lemma unit_vector_to_icrs_ra_range_example :
  exists (r : R) (d : float64),
    unit_vector_to_icrs [Fin (-1); Fin 0; Fin 0] = Ok (Fin r, d) /\
    - PI / 2 <= r <= PI / 2.
Proof. apply (unit_vector_to_icrs_ra_range (-1) 0 (Fin 0)). lra. Defined.

(** X5. A vector and its mirror image through the [z] axis are given the
    same direction. *)
Theorem unit_vector_to_icrs_mirror (x y : R) (z : float64) :
  x <> 0 ->
  unit_vector_to_icrs [Fin (- x); Fin (- y); z]
  = unit_vector_to_icrs [Fin x; Fin y; z].
Proof.
  intros Hx. unfold unit_vector_to_icrs. cbn [getitem nth_error rbind].
  rewrite !fdiv_Fin by lra.
  replace (- y / - x) with (y / x) by (field; assumption).
  reflexivity.
Qed.

Lemma unit_vector_to_icrs_mirror_example :
  unit_vector_to_icrs [Fin (- 1); Fin (- 0); Fin 0]
  = unit_vector_to_icrs [Fin 1; Fin 0; Fin 0].
Proof. apply (unit_vector_to_icrs_mirror 1 0 (Fin 0)). lra. Defined.

(** X6. For [z] from -1 to 1 the declination is a number from -pi/2 to
    pi/2, whatever [x] and [y] are. *)
Theorem unit_vector_to_icrs_dec (x y : float64) (z : R) :
  -1 <= z <= 1 ->
  exists (r : float64) (d : R),
    unit_vector_to_icrs [x; y; Fin z] = Ok (r, Fin d) /\
    - PI / 2 <= d <= PI / 2.
Proof.
  intros Hz. unfold unit_vector_to_icrs. cbn [getitem nth_error rbind].
  rewrite half_pi, arccos_Fin, fsub_Fin by assumption.
  eexists _, _. split; [reflexivity | ].
  pose proof (acos_bound z) as Hb. lra.
Qed.

Lemma unit_vector_to_icrs_dec_example :
  exists (r : float64) (d : R),
    unit_vector_to_icrs [Fin 1; Fin 0; Fin 0] = Ok (r, Fin d) /\
    - PI / 2 <= d <= PI / 2.
Proof. apply (unit_vector_to_icrs_dec (Fin 1) (Fin 0) 0). lra. Defined.

(** X7. For [z] outside of [-1, 1] nothing is raised: the declination is
    NaN. *)
Theorem unit_vector_to_icrs_dec_nan (x y : float64) (z : R) :
  z < -1 \/ 1 < z ->
  exists r : float64, unit_vector_to_icrs [x; y; Fin z] = Ok (r, NaN).
Proof.
  intros Hz. unfold unit_vector_to_icrs. cbn [getitem nth_error rbind].
  eexists. do 2 f_equal. rewrite half_pi. unfold arccos.
  destruct Hz as [Hz | Hz].
  - rewrite (Rgtb_true (-1) z) by assumption. now rewrite orb_true_r.
  - rewrite (Rgtb_true z 1) by assumption. reflexivity.
Qed.

Lemma unit_vector_to_icrs_dec_nan_example :
  exists r : float64, unit_vector_to_icrs [Fin 1; Fin 0; Fin 2] = Ok (r, NaN).
Proof. apply (unit_vector_to_icrs_dec_nan (Fin 1) (Fin 0) 2). right. lra. Defined.

(** X8. An array of fewer than three components raises an IndexError; of a
    longer one the first three components alone are read. *)
Theorem unit_vector_to_icrs_short (v : list float64) :
  (List.length v < 3)%nat ->
  unit_vector_to_icrs v = Raise IndexError.
Proof.
  intros Hlen. destruct v as [| x [| y [| z v]]]; try reflexivity.
  cbn in Hlen. lia.
Qed.

Lemma unit_vector_to_icrs_short_example :
  unit_vector_to_icrs [Fin 1; Fin 0] = Raise IndexError.
Proof. apply unit_vector_to_icrs_short. cbn. lia. Defined.

Lemma unit_vector_to_icrs_long (x y z : float64) (rest : list float64) :
  unit_vector_to_icrs (x :: y :: z :: rest) = unit_vector_to_icrs [x; y; z].
Proof. reflexivity. Qed.

End ConversionFacts.

(* ===================================================================== *)
(** ** Properties of the resolution table *)

Module TableFacts.
Import AngRes Table.

Lemma bin_centers_cons (x y : float64) (l : list float64) :
  bin_centers (x :: y :: l) = ((x + y) / Fin 2)%np :: bin_centers (y :: l).
Proof. reflexivity. Qed.

(** The lookup interpolates over the centres of the bins. *)
Lemma _get_angular_resolution_centers
  (np_interp : float64 -> list float64 -> list float64 -> float64)
  (self : AngularResolution) (Etrue : float64) :
  _get_angular_resolution np_interp self [Etrue]
  = Ok (np_interp (log Etrue) (map log (bin_centers (true_energy_bins self)))
          (values self)).
Proof. reflexivity. Qed.

Lemma bin_centers_length_cons (x : float64) (bins : list float64) :
  List.length (bin_centers (x :: bins)) = List.length bins.
Proof.
  revert x. induction bins as [| y bins IH]; intros x; [reflexivity | ].
  rewrite bin_centers_cons. cbn [List.length]. now rewrite IH.
Qed.

(** X9. There is one centre less than there are bin edges: the two arrays
    given to the interpolation have one length exactly when the table has one
    edge more than it has values. *)
Theorem bin_centers_length (bins : list float64) :
  List.length (bin_centers bins) = pred (List.length bins).
Proof.
  destruct bins as [| x bins]; [reflexivity | ].
  now rewrite bin_centers_length_cons.
Qed.

(** X10. The centre of a bin with finite edges is the mean of its two
    edges. *)
Theorem bin_centers_midpoint (es : list R) (i : nat) (a b : R) :
  nth_error es i = Some a -> nth_error es (S i) = Some b ->
  nth_error (bin_centers (map Fin es)) i = Some (Fin ((a + b) / 2)).
Proof.
  revert i. induction es as [| x es IH]; intros i Ha Hb; [now destruct i | ].
  destruct es as [| y es]; [now destruct i | ].
  cbn [map]. rewrite bin_centers_cons.
  destruct i as [| i].
  - cbn in Ha, Hb. inversion Ha. inversion Hb. subst.
    cbn [nth_error fadd]. rewrite fdiv_Fin by lra. reflexivity.
  - cbn [nth_error] in Ha |- *. apply IH; assumption.
Qed.

Lemma bin_centers_midpoint_example :
  nth_error (bin_centers (map Fin [10; 1000; 100000])) 1
  = Some (Fin ((1000 + 100000) / 2)).
Proof. apply (bin_centers_midpoint [10; 1000; 100000] 1); reflexivity. Defined.

(** *** Sorting *)

Lemma insert_sorted_In (x y : R) (l : list R) :
  In y (insert_sorted x l) <-> y = x \/ In y l.
Proof.
  induction l as [| z l IH]; cbn.
  - intuition.
  - destruct (Rle_dec x z); cbn; [intuition | ].
    rewrite IH. intuition.
Qed.

Lemma ndarray_sort_In (y : R) (l : list R) :
  In y (ndarray_sort l) <-> In y l.
Proof.
  induction l as [| x l IH]; cbn; [reflexivity | ].
  rewrite insert_sorted_In, IH. intuition.
Qed.

Lemma insert_sorted_strict (x : R) (l : list R) :
  StronglySorted Rlt l -> ~ In x l -> StronglySorted Rlt (insert_sorted x l).
Proof.
  intros Hs. induction Hs as [| z l Hs IH Hz]; intros Hx; cbn.
  - repeat constructor.
  - destruct (Rle_dec x z) as [Hle | Hgt].
    + assert (Hlt : x < z).
      { destruct Hle as [Hlt | Heq]; [assumption | ].
        exfalso. apply Hx. now left. }
      constructor; [now constructor | ].
      constructor; [assumption | ].
      apply Forall_impl with (2 := Hz). intros w Hw. lra.
    + constructor.
      * apply IH. intros Hin. apply Hx. now right.
      * rewrite Forall_forall. intros w Hw.
        apply insert_sorted_In in Hw as [-> | Hw]; [lra | ].
        rewrite Forall_forall in Hz. now apply Hz.
Qed.

Lemma ndarray_sort_strict (l : list R) :
  NoDup l -> StronglySorted Rlt (ndarray_sort l).
Proof.
  intros Hnd. induction Hnd as [| x l Hx _ IH]; cbn; [constructor | ].
  apply insert_sorted_strict; [assumption | ].
  now rewrite ndarray_sort_In.
Qed.

(** Two strictly ascending lists with the same elements are one list. *)
Lemma strict_sorted_unique (l1 l2 : list R) :
  StronglySorted Rlt l1 -> StronglySorted Rlt l2 ->
  (forall x, In x l1 <-> In x l2) -> l1 = l2.
Proof.
  intros H1. revert l2. induction H1 as [| a l1 H1 IH Ha]; intros l2 H2 Hin.
  - destruct l2 as [| b l2]; [reflexivity | ].
    exfalso. apply (proj2 (Hin b)). now left.
  - destruct H2 as [| b l2 H2 Hb].
    + exfalso. apply (proj1 (Hin a)). now left.
    + rewrite Forall_forall in Ha, Hb.
      assert (Hab : a = b).
      { destruct (proj1 (Hin a) (or_introl eq_refl)) as [Hba | Hina];
          [now symmetry | ].
        destruct (proj2 (Hin b) (or_introl eq_refl)) as [Hab | Hinb];
          [assumption | ].
        pose proof (Hb a Hina). pose proof (Ha b Hinb). lra. }
      subst b. f_equal. apply IH; [assumption | ].
      intros x. split; intros Hx.
      * destruct (proj1 (Hin x) (or_intror Hx)) as [Heq | Hx']; [ | assumption].
        subst x. pose proof (Ha a Hx). lra.
      * destruct (proj2 (Hin x) (or_intror Hx)) as [Heq | Hx']; [ | assumption].
        subst x. pose proof (Hb a Hx). lra.
Qed.

(** X11. The bin edges that the reader builds are strictly ascending, and
    they are the values of the two energy columns, each once. *)
Theorem read_columns_bins (E_min E_max resolution : list R) :
  exists es : list R,
    true_energy_bins (read_columns E_min E_max resolution) = map Fin es /\
    StronglySorted Rlt es /\
    (forall x, In x es <-> In x E_min \/ In x E_max) /\
    values (read_columns E_min E_max resolution) = map Fin resolution.
Proof.
  exists (ndarray_sort (set_union E_max E_min)).
  split; [reflexivity | split; [ | split; [ | reflexivity]]].
  - apply ndarray_sort_strict. apply NoDup_nodup.
  - intros x. unfold set_union.
    rewrite ndarray_sort_In, nodup_In, in_app_iff. intuition.
Qed.

Lemma removelast_In (x : R) (l : list R) : In x (removelast l) -> In x l.
Proof.
  induction l as [| a l IH]; [intros [] | ].
  destruct l as [| b l]; [intros [] | ].
  cbn [removelast]. intros [-> | H]; [now left | right; now apply IH].
Qed.

(** X12. For a table without gaps, whose rows are the consecutive pairs of a
    strictly ascending list of at least two edges, the reader returns these
    edges; with one resolution value per row, the bin centres are as many as
    the values. *)
Theorem read_columns_contiguous (es resolution : list R) :
  StronglySorted Rlt es -> (2 <= List.length es)%nat ->
  List.length resolution = pred (List.length es) ->
  true_energy_bins (read_columns (removelast es) (tl es) resolution) = map Fin es /\
  List.length (bin_centers
                 (true_energy_bins (read_columns (removelast es) (tl es) resolution)))
  = List.length (values (read_columns (removelast es) (tl es) resolution)).
Proof.
  intros Hs Hlen Hres.
  assert (Hbins : true_energy_bins (read_columns (removelast es) (tl es) resolution)
                  = map Fin es).
  { cbn [read_columns true_energy_bins]. f_equal.
    apply strict_sorted_unique; [ | assumption | ].
    - apply ndarray_sort_strict. apply NoDup_nodup.
    - intros x. unfold set_union.
      rewrite ndarray_sort_In, nodup_In, in_app_iff.
      destruct es as [| a [| b l]]; cbn in Hlen; try lia.
      cbn [tl]. split.
      + intros [H | H]; [right; exact H | now apply removelast_In].
      + intros [Heq | H].
        * right. cbn. now left.
        * left. exact H. }
  split; [assumption | ].
  rewrite Hbins. cbn [read_columns values].
  destruct es as [| a es]; [cbn in Hlen; lia | ].
  cbn [map]. rewrite bin_centers_length_cons, !length_map.
  cbn in Hres. now symmetry.
Qed.

Lemma read_columns_contiguous_example :
  true_energy_bins (read_columns (removelast [10; 1000; 100000])
                      (tl [10; 1000; 100000]) [1; 2])
  = map Fin [10; 1000; 100000] /\
  List.length (bin_centers
                 (true_energy_bins (read_columns (removelast [10; 1000; 100000])
                                      (tl [10; 1000; 100000]) [1; 2])))
  = List.length (values (read_columns (removelast [10; 1000; 100000])
                           (tl [10; 1000; 100000]) [1; 2])).
Proof.
  apply (read_columns_contiguous [10; 1000; 100000] [1; 2]).
  - repeat constructor; lra.
  - cbn. lia.
  - reflexivity.
Defined.

(** *** The constructor *)

Lemma py_in_here (sub s : string) : py_in sub (sub ++ s) = true.
Proof.
  assert (H : String.prefix sub (sub ++ s) = true).
  { induction sub as [| c sub IH]; cbn; [now destruct s | ].
    destruct (Ascii.ascii_dec c c); [assumption | contradiction]. }
  destruct sub, s; cbn in *; try rewrite H; reflexivity.
Qed.

(** A file name that ends in the name of the release is recognised. *)
Lemma py_in_suffix (p sub : string) : py_in sub (p ++ sub) = true.
Proof.
  induction p as [| c p IH].
  - cbn [append]. rewrite <- (py_in_here sub ""). f_equal.
    induction sub as [| a sub IHs]; [reflexivity | cbn; now rewrite <- IHs].
  - cbn [append py_in]. rewrite IH. now destruct (String.prefix sub (String c (p ++ sub))).
Qed.

Section Constructor.

Variable R2018AngResReader : string -> result AngularResolution.

(** X13. No [AngularResolution] is ever constructed.  A file name without
    "AngRes.txt" raises a ValueError; with it, and once the file is read, the
    constructor raises a NameError on the name [sigma]. *)
Theorem __init___never_returns (filename : string) :
  (forall obj, __init__ R2018AngResReader filename <> Ok obj) /\
  (py_in R2018_ANG_RES_FILENAME filename = false ->
   __init__ R2018AngResReader filename = Raise ValueError) /\
  (forall table,
      py_in R2018_ANG_RES_FILENAME filename = true ->
      R2018AngResReader filename = Ok table ->
      __init__ R2018AngResReader filename = Raise NameError).
Proof.
  unfold __init__, get_reader.
  destruct (py_in R2018_ANG_RES_FILENAME filename).
  - destruct (R2018AngResReader filename) as [t | e | ] eqn:Hread; cbn;
      (split; [discriminate | split; [discriminate | ]]);
      intros table _ Htable; [reflexivity | discriminate | discriminate].
  - cbn. split; [discriminate | split; [reflexivity | discriminate]].
Qed.

End Constructor.

Lemma __init___never_returns_example :
  __init__ (fun _ => Ok (read_columns [10] [1000] [1])) "IC86-2012-AngRes.txt"
  = Raise NameError.
Proof.
  apply (proj2 (proj2 (__init___never_returns
                         (fun _ => Ok (read_columns [10] [1000] [1]))
                         "IC86-2012-AngRes.txt")) (read_columns [10] [1000] [1]));
    reflexivity.
Defined.

End TableFacts.

(* ===================================================================== *)
(** ** Properties of [lists_to_tuple] *)

Module ListsFacts.
Import Lists.

Lemma skipn_nth_error {A} (l : list A) (k : nat) (a : A) :
  nth_error l k = Some a -> skipn k l = a :: skipn (S k) l.
Proof.
  revert k. induction l as [| x l IH]; intros k H; [now destruct k | ].
  destruct k as [| k]; [now inversion H | ].
  cbn [nth_error] in H. change (skipn (S k) (x :: l)) with (skipn k l).
  now rewrite (IH k H).
Qed.

Lemma getitem_lt {A} (l : list A) (k : nat) :
  (k < List.length l)%nat -> exists a, nth_error l k = Some a /\ getitem l k = Ok a.
Proof.
  intros H. unfold getitem.
  destruct (nth_error l k) as [a | ] eqn:Hn; [now exists a | ].
  apply nth_error_None in Hn. lia.
Qed.

Lemma getitem_ge {A} (l : list A) (k : nat) :
  (List.length l <= k)%nat -> getitem l k = Raise IndexError.
Proof.
  intros H. unfold getitem. now rewrite (proj2 (nth_error_None l k) H).
Qed.

Lemma pairs_from {A B} (l1 : list A) (l2 : list B) (n k : nat) :
  (k + n = List.length l1)%nat -> (List.length l1 <= List.length l2)%nat ->
  comprehension
    (fun i => (a <- getitem l1 i ;; b <- getitem l2 i ;; Ok (a, b))%py)
    (seq k n)
  = Ok (combine (skipn k l1) (skipn k l2)).
Proof.
  revert k. induction n as [| n IH]; intros k Hk Hle.
  - rewrite skipn_all2 by lia. reflexivity.
  - cbn [seq comprehension].
    destruct (getitem_lt l1 k) as (a & Ha & ->); [lia | ].
    destruct (getitem_lt l2 k) as (b & Hb & ->); [lia | ].
    cbn [rbind]. rewrite IH by lia.
    rewrite (skipn_nth_error l1 k a Ha), (skipn_nth_error l2 k b Hb).
    reflexivity.
Qed.

Lemma pairs_from_short {A B} (l1 : list A) (l2 : list B) (n k : nat) :
  (k + n = List.length l1)%nat ->
  (k <= List.length l2)%nat -> (List.length l2 < List.length l1)%nat ->
  comprehension
    (fun i => (a <- getitem l1 i ;; b <- getitem l2 i ;; Ok (a, b))%py)
    (seq k n)
  = Raise IndexError.
Proof.
  revert k. induction n as [| n IH]; intros k Hk Hle Hlt; [lia | ].
  cbn [seq comprehension].
  destruct (getitem_lt l1 k) as (a & Ha & ->); [lia | ].
  destruct (Nat.eq_dec k (List.length l2)) as [Heq | Hne].
  - rewrite (getitem_ge l2 k) by lia. reflexivity.
  - destruct (getitem_lt l2 k) as (b & Hb & ->); [lia | ].
    cbn [rbind]. rewrite IH by lia. reflexivity.
Qed.

(** X14. When the second list is at least as long as the first,
    [lists_to_tuple] pairs the two lists entry by entry, up to the length of
    the first: what the second list has beyond it is dropped. *)
Theorem lists_to_tuple_pairs {A B} (list1 : list A) (list2 : list B) :
  (List.length list1 <= List.length list2)%nat ->
  lists_to_tuple list1 list2 = Ok (combine list1 list2).
Proof.
  intros Hle. unfold lists_to_tuple.
  now rewrite pairs_from by (cbn; lia).
Qed.

Lemma lists_to_tuple_pairs_example :
  lists_to_tuple [1%nat; 2%nat] [true; false; true]
  = Ok (combine [1%nat; 2%nat] [true; false; true]).
Proof. apply lists_to_tuple_pairs. cbn. lia. Defined.

(** X15. When the second list is shorter than the first, [lists_to_tuple]
    raises an IndexError. *)
Theorem lists_to_tuple_short {A B} (list1 : list A) (list2 : list B) :
  (List.length list2 < List.length list1)%nat ->
  lists_to_tuple list1 list2 = Raise IndexError.
Proof.
  intros Hlt. unfold lists_to_tuple.
  apply pairs_from_short; [reflexivity | lia | assumption].
Qed.

Lemma lists_to_tuple_short_example :
  lists_to_tuple [1%nat; 2%nat] [true] = Raise IndexError.
Proof. apply lists_to_tuple_short. cbn. lia. Defined.

End ListsFacts.

(* ===================================================================== *)
(** ** More properties of simulator.py *)

Module SimMoreFacts.
Import Sim History SimFacts Demo Demo2.

Lemma fold_fadd_NaN (l : list float64) : fold_left fadd l NaN = NaN.
Proof. induction l as [| x l IH]; [reflexivity | exact IH]. Qed.

Lemma fadd_NaN_r (a : float64) : (a + NaN)%np = NaN.
Proof. now destruct a. Qed.

Lemma fdiv_NaN_r (a : float64) : (a / NaN)%np = NaN.
Proof. now destruct a. Qed.

Lemma fold_fadd_In_NaN (l : list float64) (a : float64) :
  In NaN l -> fold_left fadd l a = NaN.
Proof.
  revert a. induction l as [| x l IH]; intros a Hin; [destruct Hin | ].
  cbn [fold_left]. destruct Hin as [Hx | Hin].
  - subst x. rewrite fadd_NaN_r. apply fold_fadd_NaN.
  - now apply IH.
Qed.

Section Simulator.

Context {W : Type} {rng : NumpyRandom W} {calc : NeutrinoCalculator W}.

(** X16. With the cutoff that the constructor sets, [max_cosz = 1], the
    cos-zenith [-sin(dec)] never exceeds the cutoff: the detection
    probability of a new simulator is always the answer of the effective
    area. *)
Theorem default_cutoff_never_applies
  (srcs : Source W + list (Source W)) (d : Detector W)
  (Etrue dec0 max_energy : float64) :
  detection_prob_of (__init__ srcs d) Etrue (- sin dec0)%np max_energy
  = detection_probability (effective_area d) Etrue (- sin dec0)%np max_energy.
Proof.
  apply detection_prob_below_cutoff. cbn [__init__ max_cosz].
  destruct dec0 as [r | | | ]; try reflexivity.
  cbn [sin fneg fgtb]. apply Rgtb_false.
  pose proof (SIN_bound r). lra.
Qed.

(** X17. For uniform draws [u] in [0, 1) and [v] in [0, 1], the direction
    of [sphere_sample] has a right ascension from 0 up to 2 pi and a
    declination from -pi/2 to pi/2. *)
Theorem sphere_sample_range (radius : float64) (u v : R) (w w1 w2 : W) :
  random_uniform (Fin 0) (Fin 1) w = Ok (Fin u, w1) ->
  random_uniform (Fin 0) (Fin 1) w1 = Ok (Fin v, w2) ->
  0 <= u < 1 -> 0 <= v <= 1 ->
  exists ra0 dec0 : R,
    sphere_sample radius w = Ok ((Fin ra0, Fin dec0), w2) /\
    0 <= ra0 < 2 * PI /\
    - PI / 2 <= dec0 <= PI / 2.
Proof.
  intros Hu Hv Hur Hvr.
  rewrite (sphere_sample_draws radius _ _ _ _ _ Hu Hv).
  rewrite half_pi. unfold pi. rewrite !fmul_Fin, fsub_Fin.
  rewrite arccos_Fin, fsub_Fin by lra.
  eexists _, _. split; [reflexivity | ].
  pose proof PI_RGT_0 as Hpi.
  pose proof (acos_bound (2 * v - 1)) as Hb.
  split; [nra | lra].
Qed.

(** X20. One expected number that is NaN makes every weight NaN. *)
Theorem weights_poisoned_by_nan
  (self : Simulator W) (w w1 : W) (Nex : list float64) :
  nu_calc (sources self) (effective_area (detector self))
    (time self) (max_cosz self) w = Ok (Nex, w1) ->
  In NaN Nex ->
  exists self',
    _get_expected_number self w = Ok (self', w1) /\
    _source_weights self' = map (fun _ => NaN) Nex.
Proof.
  intros Hcalc Hin. unfold _get_expected_number.
  rewrite (bind_step _ _ _ _ _ Hcalc).
  eexists. split; [reflexivity | ].
  cbn [set_expected _source_weights]. unfold sum, array_div.
  rewrite fold_fadd_In_NaN by assumption.
  apply map_ext. intros x. apply fdiv_NaN_r.
Qed.

(** *** Runs *)

Lemma _get_expected_number_Ok (self : Simulator W) (w w1 : W) (Nex : list float64) :
  nu_calc (sources self) (effective_area (detector self))
    (time self) (max_cosz self) w = Ok (Nex, w1) ->
  _get_expected_number self w
  = Ok (set_expected self Nex (array_div Nex (sum Nex)), w1).
Proof.
  intros H. unfold _get_expected_number. now rewrite (bind_step _ _ _ _ _ H).
Qed.

(** X21. When the count of the run is zero or negative (a forced negative
    [N], or a Poisson draw of 0) the run returns whatever the budget of the
    rejection loop: the count is stored as it is and the catalogue is
    empty. *)
Theorem run_without_trials
  (fuel : nat) (self : Simulator W) (N0 : option Z) (w w1 w2 : W)
  (Nex : list float64) (n : Z) :
  nu_calc (sources self) (effective_area (detector self))
    (time self) (max_cosz self) w = Ok (Nex, w1) ->
  draw_N (set_expected self Nex (array_div Nex (sum Nex))) N0 w1 = Ok (n, w2) ->
  (n <= 0)%Z ->
  exists self',
    run fuel self N0 w = Ok (self', w2) /\
    N self' = n /\
    true_energy self' = [] /\ reco_energy self' = [] /\
    coordinate self' = [] /\ ra self' = [] /\ dec self' = [].
Proof.
  intros Hcalc Hn Hle. unfold run.
  rewrite (bind_step _ _ _ _ _ (_get_expected_number_Ok _ _ _ _ Hcalc)).
  rewrite (bind_step _ _ _ _ _ Hn).
  replace (Z.to_nat n) with 0%nat by (destruct n; cbn; lia).
  eexists. split; [reflexivity | ]. cbn. now repeat split.
Qed.

(** What the [for] loop leaves as it was. *)
Lemma for_range_frame (fuel n : nat) :
  forall (self self' : Simulator W) (w w' : W),
    for_range n (event fuel) self w = Ok (self', w') ->
    _sources self' = _sources self /\ _detector self' = _detector self /\
    max_cosz self' = max_cosz self /\ time self' = time self /\
    _Nex self' = _Nex self /\ _source_weights self' = _source_weights self.
Proof.
  induction n as [| n IH]; intros self self' w w' H.
  - apply ret_Ok in H as [-> ->]. now repeat split.
  - cbn [for_range] in H.
    apply bind_Ok in H as (self1 & w1 & Hev & H).
    apply event_appends in Hev as (a & _ & ->).
    apply IH in H. cbn in H. exact H.
Qed.

(** X22. A run that returns has left the sources, the detector, the cutoff
    and the livetime as they were; the expected numbers it stores are the
    answer of the calculator at the start of the run, and the weights are
    these numbers over their sum: they are computed once for the run. *)
Theorem run_keeps_setup
  (fuel : nat) (self self' : Simulator W) (N0 : option Z) (w w' : W) :
  run fuel self N0 w = Ok (self', w') ->
  _sources self' = _sources self /\ _detector self' = _detector self /\
  max_cosz self' = max_cosz self /\ time self' = time self /\
  exists (Nex : list float64) (w1 : W),
    nu_calc (sources self) (effective_area (detector self))
      (time self) (max_cosz self) w = Ok (Nex, w1) /\
    _Nex self' = Nex /\
    _source_weights self' = array_div Nex (sum Nex).
Proof.
  intros H. unfold run in H.
  apply bind_Ok in H as (self1 & w1 & Hexp & H).
  apply bind_Ok in H as (n & w2 & _ & H).
  unfold _get_expected_number in Hexp.
  apply bind_Ok in Hexp as (Nex & w0 & Hcalc & Hexp).
  apply ret_Ok in Hexp as [-> ->].
  apply for_range_frame in H. cbn in H.
  destruct H as (H1 & H2 & H3 & H4 & H5 & H6).
  refine (conj H1 (conj H2 (conj H3 (conj H4 _)))).
  exists Nex, w0. now repeat split.
Qed.

(** A run with a forced positive count that returns has recorded an entry. *)
Lemma run_first_entry
  (fuel : nat) (self self' : Simulator W) (n : Z) (w w' : W) :
  (0 < n)%Z ->
  run fuel self (Some n) w = Ok (self', w') ->
  exists a : Accepted, genuine self a.
Proof.
  intros Hn H. apply run_history in H as (h & Hlen & _ & Hgen & _ & HN).
  rewrite HN in Hlen by (cbn; lia). cbn [int_] in Hlen.
  destruct h as [| a h]; [cbn in Hlen; lia | ].
  exists a. now inversion Hgen.
Qed.


(** X24. A simulator without sources returns from no run with a forced
    positive count. *)
Theorem run_without_sources_never_returns
  (fuel : nat) (self : Simulator W) (n : Z) (w : W) :
  _sources self = [] -> (0 < n)%Z ->
  forall (self' : Simulator W) (w' : W),
    run fuel self (Some n) w <> Ok (self', w').
Proof.
  intros Hnone Hn self' w' H.
  apply run_first_entry in H as (a & _ & _ & src & Hsrc & _); [ | assumption].
  unfold getitem, source in Hsrc. rewrite Hnone in Hsrc.
  destruct (a_label a); discriminate.
Qed.

End Simulator.

End SimMoreFacts.

(* ===================================================================== *)
(** ** The further setups at work *)

Module Demo2Facts.
Import Sim History SimFacts SimMoreFacts Demo Demo2 DemoFacts.

Lemma sphere_sample_range_example :
  exists ra0 dec0 : R,
    sphere_sample (Fin 1) 0%nat = Ok ((Fin ra0, Fin dec0), 2%nat) /\
    0 <= ra0 < 2 * PI /\
    - PI / 2 <= dec0 <= PI / 2.
Proof.
  apply (sphere_sample_range (rng := fixed_random) (Fin 1) (1 / 2) (1 / 2)
           0%nat 1%nat 2%nat eq_refl eq_refl); lra.
Defined.

Lemma weights_poisoned_by_nan_example :
  exists self',
    _get_expected_number (calc := undefined_first) pair_sim 0%nat
    = Ok (self', 0%nat) /\
    _source_weights self' = map (fun _ => NaN) [NaN; Fin 2].
Proof.
  apply (weights_poisoned_by_nan (calc := undefined_first) pair_sim
           0%nat 0%nat [NaN; Fin 2] eq_refl).
  now left.
Defined.

Lemma run_without_trials_example :
  exists self',
    run (calc := two_each) 0 point_sim (Some (-2)%Z) 0%nat = Ok (self', 0%nat) /\
    N self' = (-2)%Z /\
    true_energy self' = [] /\ reco_energy self' = [] /\
    coordinate self' = [] /\ ra self' = [] /\ dec self' = [].
Proof.
  apply (run_without_trials (calc := two_each) 0 point_sim (Some (-2)%Z)
           0%nat 0%nat 0%nat [Fin 2] (-2)%Z eq_refl eq_refl).
  lia.
Defined.

Lemma run_keeps_setup_example :
  let s' := point_event (start_catalog (expected point_sim) 1) in
  _sources s' = _sources point_sim /\ _detector s' = _detector point_sim /\
  max_cosz s' = max_cosz point_sim /\ time s' = time point_sim /\
  exists (Nex : list float64) (w1 : world),
    nu_calc (NeutrinoCalculator := two_each) (sources point_sim)
      (effective_area (detector point_sim))
      (time point_sim) (max_cosz point_sim) 0%nat = Ok (Nex, w1) /\
    _Nex s' = Nex /\
    _source_weights s' = array_div Nex (sum Nex).
Proof.
  exact (run_keeps_setup (calc := two_each) 1 point_sim _ (Some 1%Z)
           0%nat 4%nat demo_run_point).
Defined.


Lemma run_without_sources_never_returns_example :
  run (calc := two_each) 1 empty_sim (Some 1%Z) 0%nat
  <> Ok (start_catalog empty_sim 1, 0%nat).
Proof.
  apply (run_without_sources_never_returns (calc := two_each)
           1 empty_sim 1%Z 0%nat eq_refl).
  lia.
Defined.

End Demo2Facts.

(* ===================================================================== *)
(** ** The code as written: where a run stops *)

Module WrittenFacts.
Import Sim Calls Written.

Section Written.

Context {W : Type} {rng : NumpyRandom W} {calc : NeutrinoCalculator W}.

Variable make_SkyCoord : float64 -> float64 -> result SkyCoord.





End Written.

End WrittenFacts.

(* ===================================================================== *)
(** ** [Sim] against the code statement by statement

    With [source] read as [sources] and a [SkyCoord] that keeps its two
    numbers, the statement-by-statement model and [Sim] return the same
    objects and raise the same exceptions. *)

Module AgreementFacts.
Import Sim Calls Written Demo3.

Section Agreement.

Context {W : Type} {rng : NumpyRandom W} {calc : NeutrinoCalculator W}.

(** Case analysis on the innermost call whose outcome is examined. *)
Ltac step :=
  match goal with
  | |- context [match ?x with _ => _ end] =>
      lazymatch x with
      | context [match _ with _ => _ end] => fail
      | _ =>
          lazymatch type of x with
          | result _ => destruct x as [? | ? | ]
          | prod _ _ => destruct x as [? ?]
          | bool => destruct x
          | SourceType => destruct x
          end
      end;
      cbn [fst snd attrs has_catalogue _sources _detector
           push_true_energy push_reco_energy]
  end.

Lemma trial_agrees (label : nat) (o : Object W) (w : W) :
  match Sim.trial (attrs o) label w with
  | Ok (t, w') => trial sources_for_source label o w = (o, w', Ok t)
  | Raise e => snd (trial sources_for_source label o w) = Raise e
  | OutOfFuel => snd (trial sources_for_source label o w) = OutOfFuel
  end.
Proof.
  unfold Sim.trial, trial, source_at, getattr_source, sources_for_source,
    detection_prob_of, source, pure, self, call, cret, bind, lift, ret, cbind.
  cbn [attrs]. repeat step; try reflexivity.
Qed.

Lemma rejection_loop_agrees (fuel : nat) (label : nat) (o : Object W) :
  forall w : W,
    match Sim.rejection_loop fuel (attrs o) label w with
    | Ok (t, w') => rejection_loop sources_for_source fuel label o w = (o, w', Ok t)
    | Raise e => snd (rejection_loop sources_for_source fuel label o w) = Raise e
    | OutOfFuel =>
        snd (rejection_loop sources_for_source fuel label o w) = OutOfFuel
    end.
Proof.
  induction fuel as [| fuel IH]; intros w; [reflexivity | ].
  cbn [Sim.rejection_loop rejection_loop]. unfold bind, cbind.
  pose proof (trial_agrees label o w) as Ht.
  destruct (Sim.trial (attrs o) label w) as [[t w1] | e | ].
  - rewrite Ht. destruct (t_accepted t); [reflexivity | apply IH].
  - destruct (trial sources_for_source label o w) as [[o1 w1] r].
    cbn in Ht. now subst r.
  - destruct (trial sources_for_source label o w) as [[o1 w1] r].
    cbn in Ht. now subst r.
Qed.

Lemma record_event_agrees (label : nat) (t : Trial) (o : Object W) (w : W) :
  match Sim.record_event (attrs o) label t w with
  | Ok (s', w') =>
      record_event sources_for_source plain_SkyCoord label t o w
      = ({| attrs := s'; has_catalogue := has_catalogue o |}, w', Ok tt)
  | Raise e =>
      snd (record_event sources_for_source plain_SkyCoord label t o w) = Raise e
  | OutOfFuel =>
      snd (record_event sources_for_source plain_SkyCoord label t o w) = OutOfFuel
  end.
Proof.
  unfold Sim.record_event, record_event, source_at, getattr_source,
    sources_for_source, plain_SkyCoord, source, pure, self, call, cret, assign,
    bind, lift, ret, cbind.
  cbn [attrs has_catalogue].
  unfold detector.
  cbn [_sources _detector push_true_energy push_reco_energy].
  repeat step; try reflexivity.
Qed.

Lemma event_agrees (fuel : nat) (o : Object W) (w : W) :
  match Sim.event fuel (attrs o) w with
  | Ok (s', w') =>
      event sources_for_source plain_SkyCoord fuel o w
      = ({| attrs := s'; has_catalogue := has_catalogue o |}, w', Ok tt)
  | Raise e => snd (event sources_for_source plain_SkyCoord fuel o w) = Raise e
  | OutOfFuel =>
      snd (event sources_for_source plain_SkyCoord fuel o w) = OutOfFuel
  end.
Proof.
  unfold Sim.event, event, bind, cbind, self, call. cbn [attrs].
  destruct (random_choice (seq 0 (List.length (sources (attrs o))))
              (_source_weights (attrs o)) w) as [[label w1] | e | ];
    [ | reflexivity | reflexivity].
  pose proof (rejection_loop_agrees fuel label o w1) as Hloop.
  destruct (Sim.rejection_loop fuel (attrs o) label w1) as [[t w2] | e | ].
  - rewrite Hloop. apply record_event_agrees.
  - destruct (rejection_loop sources_for_source fuel label o w1) as [[o1 w2] r].
    cbn in Hloop. now subst r.
  - destruct (rejection_loop sources_for_source fuel label o w1) as [[o1 w2] r].
    cbn in Hloop. now subst r.
Qed.

Lemma for_range_agrees (fuel n : nat) :
  forall (o : Object W) (w : W),
    match Sim.for_range n (Sim.event fuel) (attrs o) w with
    | Ok (s', w') =>
        for_range n (event sources_for_source plain_SkyCoord fuel) o w
        = ({| attrs := s'; has_catalogue := has_catalogue o |}, w', Ok tt)
    | Raise e =>
        snd (for_range n (event sources_for_source plain_SkyCoord fuel) o w)
        = Raise e
    | OutOfFuel =>
        snd (for_range n (event sources_for_source plain_SkyCoord fuel) o w)
        = OutOfFuel
    end.
Proof.
  induction n as [| n IH]; intros o w.
  - cbn. now destruct o.
  - cbn [Sim.for_range for_range]. unfold bind, cbind.
    pose proof (event_agrees fuel o w) as Hev.
    destruct (Sim.event fuel (attrs o) w) as [[s1 w1] | e | ].
    + rewrite Hev.
      apply (IH {| attrs := s1; has_catalogue := has_catalogue o |} w1).
    + destruct (event sources_for_source plain_SkyCoord fuel o w) as [[o1 w1] r].
      cbn in Hev. now subst r.
    + destruct (event sources_for_source plain_SkyCoord fuel o w) as [[o1 w1] r].
      cbn in Hev. now subst r.
Qed.

(** A run: the same object and state when it returns, the same exception
    when it raises, and the budget runs out in the one when it does in the
    other. *)
Lemma run_agrees (fuel : nat) (N0 : option Z) (o : Object W) (w : W) :
  match Sim.run fuel (attrs o) N0 w with
  | Ok (s', w') =>
      run sources_for_source plain_SkyCoord fuel N0 o w
      = ({| attrs := s'; has_catalogue := true |}, w', Ok tt)
  | Raise e => snd (run sources_for_source plain_SkyCoord fuel N0 o w) = Raise e
  | OutOfFuel =>
      snd (run sources_for_source plain_SkyCoord fuel N0 o w) = OutOfFuel
  end.
Proof.
  unfold Sim.run, run, Sim._get_expected_number, _get_expected_number,
    draw_N, self, call, assign, create_lists, cret, bind, cbind, ret.
  cbn [attrs has_catalogue].
  destruct (nu_calc (sources (attrs o)) (effective_area (detector (attrs o)))
              (time (attrs o)) (max_cosz (attrs o)) w) as [[Nex w1] | e | ];
    [ | reflexivity | reflexivity].
  cbn [attrs has_catalogue].
  assert (Hloop : forall n w2,
    match Sim.for_range (Z.to_nat n) (Sim.event fuel)
            (start_catalog (set_expected (attrs o) Nex (array_div Nex (sum Nex))) n) w2
    with
    | Ok (s', w') =>
        for_range (Z.to_nat n) (event sources_for_source plain_SkyCoord fuel)
          {| attrs := clear_lists (set_N n (set_source_weights
                        (array_div Nex (sum Nex)) (set_Nex Nex (attrs o))));
             has_catalogue := true |} w2
        = ({| attrs := s'; has_catalogue := true |}, w', Ok tt)
    | Raise e =>
        snd (for_range (Z.to_nat n) (event sources_for_source plain_SkyCoord fuel)
               {| attrs := clear_lists (set_N n (set_source_weights
                             (array_div Nex (sum Nex)) (set_Nex Nex (attrs o))));
                  has_catalogue := true |} w2) = Raise e
    | OutOfFuel =>
        snd (for_range (Z.to_nat n) (event sources_for_source plain_SkyCoord fuel)
               {| attrs := clear_lists (set_N n (set_source_weights
                             (array_div Nex (sum Nex)) (set_Nex Nex (attrs o))));
                  has_catalogue := true |} w2) = OutOfFuel
    end).
  { intros n w2.
    exact (for_range_agrees fuel (Z.to_nat n)
             {| attrs := start_catalog
                           (set_expected (attrs o) Nex (array_div Nex (sum Nex))) n;
                has_catalogue := true |} w2). }
  destruct (py_not N0).
  - change (_Nex (set_expected (attrs o) Nex (array_div Nex (sum Nex)))) with Nex.
    change (_Nex (set_source_weights (array_div Nex (sum Nex))
                    (set_Nex Nex (attrs o)))) with Nex.
    destruct (random_poisson (sum Nex) w1) as [[n w2] | e | ];
      [ | reflexivity | reflexivity].
    apply Hloop.
  - apply Hloop.
Qed.

End Agreement.

End AgreementFacts.

(* ===================================================================== *)
(** ** The weights in rounded arithmetic: facts *)

Module FlFacts.
Import Sim Fl.

Lemma Rsum_from (l : list R) (a : R) : fold_left Rplus l a = a + Rsum l.
Proof.
  unfold Rsum. revert a. induction l as [| x l IH]; intros a; cbn; [lra | ].
  rewrite (IH (a + x)), (IH (0 + x)). lra.
Qed.

Lemma Rsum_cons (x : R) (l : list R) : Rsum (x :: l) = x + Rsum l.
Proof. unfold Rsum at 1. cbn. rewrite Rsum_from. lra. Qed.

Lemma Rsum_nonneg (l : list R) : Forall (fun x => 0 <= x) l -> 0 <= Rsum l.
Proof.
  intros H. induction H as [| x l Hx _ IH]; [unfold Rsum; cbn; lra | ].
  rewrite Rsum_cons. lra.
Qed.

Lemma Rabs_between (x b : R) : Rabs x <= b -> - b <= x <= b.
Proof. unfold Rabs. destruct (Rcase_abs x); lra. Qed.

Lemma bernoulli (u : R) (n : nat) :
  0 <= u <= 1 -> 1 - INR n * u <= (1 - u) ^ n.
Proof.
  intros Hu. induction n as [| n IH]; [cbn; lra | ].
  rewrite S_INR. cbn [pow].
  pose proof (pos_INR n) as Hn.
  assert (0 <= INR n * (u * u)) by (apply Rmult_le_pos; [ | apply Rmult_le_pos]; lra).
  apply Rle_trans with ((1 - u) * (1 - INR n * u)); [lra | ].
  apply Rmult_le_compat_l; lra.
Qed.

Lemma pow_growth (u : R) (n : nat) :
  0 <= u -> (1 - INR n * u) * (1 + u) ^ n <= 1.
Proof.
  intros Hu. induction n as [| n IH]; [cbn; lra | ].
  rewrite S_INR. cbn [pow].
  pose proof (pos_INR n) as Hn.
  assert (HP : 0 <= (1 + u) ^ n) by (apply pow_le; lra).
  assert (0 <= (INR n + 1) * (u * u) * (1 + u) ^ n).
  { apply Rmult_le_pos; [ | assumption].
    apply Rmult_le_pos; [ | apply Rmult_le_pos]; lra. }
  replace ((1 - (INR n + 1) * u) * ((1 + u) * (1 + u) ^ n))
    with ((1 - INR n * u) * (1 + u) ^ n - (INR n + 1) * (u * u) * (1 + u) ^ n)
    by ring.
  lra.
Qed.

Section Rounding.

(** Rounding to the nearest double, as IEEE 754 has it: the doubles are left
    as they are, rounding keeps the order, a sum of two doubles is off by at
    most the relative error [u], a quotient by that and an absolute error
    [eta] where it underflows. *)
Variable rnd : R -> R.
Variable Omega : R.
Variable is_float : R -> Prop.
Variables u eta : R.

Hypothesis Omega_large : 1 <= Omega.
Hypothesis u_small : 0 <= u < 1.
Hypothesis float_0 : is_float 0.
Hypothesis float_1 : is_float 1.
Hypothesis rnd_float : forall x, is_float (rnd x).
Hypothesis rnd_id : forall x, is_float x -> rnd x = x.
Hypothesis rnd_mono : forall x y, x <= y -> rnd x <= rnd y.
Hypothesis add_error :
  forall x y, is_float x -> is_float y ->
              Rabs (rnd (x + y) - (x + y)) <= u * Rabs (x + y).
Hypothesis div_error :
  forall x y, is_float x -> is_float y -> y <> 0 ->
              Rabs (rnd (x / y) - x / y) <= u * Rabs (x / y) + eta.

Context {W : Type} {calc : NeutrinoCalculator W}.

Lemma rnd_nonneg (x : R) : 0 <= x -> 0 <= rnd x.
Proof. intros H. rewrite <- (rnd_id 0 float_0). now apply rnd_mono. Qed.

Lemma round_Fin (x : R) :
  - Omega <= rnd x <= Omega -> round rnd Omega x = Fin (rnd x).
Proof.
  intros [Hlo Hhi]. unfold round.
  rewrite (Rgtb_false _ _ Hhi), (Rgtb_false _ _ Hlo). reflexivity.
Qed.

Lemma round_inv (x r : R) : round rnd Omega x = Fin r -> r = rnd x.
Proof.
  unfold round. destruct (Rgtb (rnd x) Omega); [discriminate | ].
  destruct (Rgtb (- Omega) (rnd x)); [discriminate | ]. congruence.
Qed.

(** Once the running sum has left the finite doubles it does not return. *)
Lemma fold_fadd_stuck (xs : list R) :
  forall a : float64,
    (forall r, a <> Fin r) ->
    forall r, fold_left (fadd rnd Omega) (map Fin xs) a <> Fin r.
Proof.
  induction xs as [| x xs IH]; intros a Ha r; [apply Ha | ].
  cbn [map fold_left]. apply IH.
  destruct a as [y | | | ]; cbn; try discriminate.
  exfalso. now apply (Ha y).
Qed.

(** The computed sum against the exact one. *)
Lemma fold_fadd_bounds (xs : list R) :
  Forall (fun x => is_float x /\ 0 <= x) xs ->
  forall a S : R,
    is_float a -> 0 <= a ->
    fold_left (fadd rnd Omega) (map Fin xs) (Fin a) = Fin S ->
    is_float S /\ a <= S /\ Forall (fun x => x <= S) xs /\
    (1 - u) ^ List.length xs * (a + Rsum xs) <= S
    <= (1 + u) ^ List.length xs * (a + Rsum xs).
Proof.
  intros H. induction H as [| x xs [Hfx Hx] Hxs IH]; intros a S Hfa Ha Hsum.
  - cbn in Hsum. injection Hsum as <-. unfold Rsum. cbn.
    repeat split; trivial; lra.
  - cbn [map fold_left] in Hsum. cbn [fadd] in Hsum.
    destruct (round rnd Omega (a + x)) as [a' | | | ] eqn:Hround;
      try (exfalso; revert Hsum; apply fold_fadd_stuck; discriminate).
    apply round_inv in Hround. subst a'.
    assert (Ha' : 0 <= rnd (a + x)) by (apply rnd_nonneg; lra).
    destruct (IH _ _ (rnd_float _) Ha' Hsum) as (HfS & HaS & Hall & Hlo & Hhi).
    assert (Hax : a <= rnd (a + x))
      by (rewrite <- (rnd_id a Hfa) at 1; apply rnd_mono; lra).
    assert (Hxx : x <= rnd (a + x))
      by (rewrite <- (rnd_id x Hfx) at 1; apply rnd_mono; lra).
    pose proof (add_error a x Hfa Hfx) as Herr.
    rewrite (Rabs_pos_eq (a + x)) in Herr by lra.
    apply Rabs_between in Herr.
    assert (Htail : 0 <= Rsum xs).
    { apply Rsum_nonneg. apply Forall_impl with (2 := Hxs). now intros y [_ Hy]. }
    assert (HP : 0 <= (1 + u) ^ List.length xs) by (apply pow_le; lra).
    assert (HQ : 0 <= (1 - u) ^ List.length xs) by (apply pow_le; lra).
    split; [assumption | ]. split; [lra | ].
    split; [constructor; [lra | assumption] | ].
    rewrite Rsum_cons. cbn [List.length pow]. split.
    + apply Rle_trans with (2 := Hlo).
      apply Rle_trans
        with ((1 - u) ^ List.length xs * ((1 - u) * (a + (x + Rsum xs))));
        [right; ring | ].
      apply Rmult_le_compat_l; [assumption | ].
      assert (0 <= u * Rsum xs) by (apply Rmult_le_pos; lra). lra.
    + apply Rle_trans with (1 := Hhi).
      apply Rle_trans
        with ((1 + u) ^ List.length xs * ((1 + u) * (a + (x + Rsum xs))));
        [ | right; ring].
      apply Rmult_le_compat_l; [assumption | ].
      assert (0 <= u * Rsum xs) by (apply Rmult_le_pos; lra). lra.
Qed.

(** One weight: a rounded quotient, between 0 and 1. *)
Lemma weight_Fin (x S : R) :
  0 <= x <= S -> 0 < S ->
  fdiv rnd Omega (Fin x) (Fin S) = Fin (rnd (x / S)) /\ 0 <= rnd (x / S) <= 1.
Proof.
  intros [Hx HxS] HS.
  assert (Hq : 0 <= x / S <= 1).
  { split.
    - apply Rmult_le_pos; [assumption | left; now apply Rinv_0_lt_compat].
    - apply Rmult_le_reg_r with S; [assumption | ].
      unfold Rdiv. rewrite Rmult_assoc, Rinv_l by lra. lra. }
  assert (Hr : 0 <= rnd (x / S) <= 1).
  { split; [now apply rnd_nonneg | ].
    rewrite <- (rnd_id 1 float_1). now apply rnd_mono. }
  split; [ | assumption].
  unfold fdiv. rewrite Reqb_false by lra. apply round_Fin. lra.
Qed.

Lemma weights_Fin (xs : list R) (S : R) :
  Forall (fun x => 0 <= x <= S) xs -> 0 < S ->
  array_div rnd Omega (map Fin xs) (Fin S)
  = map Fin (map (fun x => rnd (x / S)) xs).
Proof.
  intros H HS. unfold array_div. rewrite !map_map.
  induction H as [| x xs Hx _ IH]; [reflexivity | ].
  cbn [map]. rewrite IH. f_equal. now apply weight_Fin.
Qed.

(** The exact sum of the rounded quotients against the quotient of the exact
    sum. *)
Lemma weights_sum_error (xs : list R) (S : R) :
  is_float S -> 0 < S -> Forall (fun x => is_float x /\ 0 <= x) xs ->
  (1 - u) * (Rsum xs / S) - INR (List.length xs) * eta
  <= Rsum (map (fun x => rnd (x / S)) xs)
  <= (1 + u) * (Rsum xs / S) + INR (List.length xs) * eta.
Proof.
  intros HfS HS H. induction H as [| x xs [Hfx Hx] _ IH].
  - unfold Rsum, Rdiv. cbn. lra.
  - cbn [map List.length]. rewrite !Rsum_cons, S_INR.
    assert (HS0 : S <> 0) by lra.
    pose proof (div_error x S Hfx HfS HS0) as Herr.
    assert (Hq : 0 <= x / S)
      by (apply Rmult_le_pos; [assumption | left; now apply Rinv_0_lt_compat]).
    rewrite (Rabs_pos_eq (x / S)) in Herr by assumption.
    apply Rabs_between in Herr.
    replace ((x + Rsum xs) / S) with (x / S + Rsum xs / S)
      by (unfold Rdiv; ring).
    lra.
Qed.

(** The quotient of the exact sum by the computed one. *)
Lemma total_ratio (xs : list R) (S : R) :
  Forall (fun x => is_float x /\ 0 <= x) xs ->
  2 * INR (List.length xs) * u <= 1 ->
  fold_left (fadd rnd Omega) (map Fin xs) (Fin 0) = Fin S -> 0 < S ->
  1 - INR (List.length xs) * u <= Rsum xs / S
  <= 1 + 2 * INR (List.length xs) * u.
Proof.
  intros Hxs Hn Hsum HS.
  destruct (fold_fadd_bounds xs Hxs 0 S float_0 (Rle_refl 0) Hsum)
    as (_ & _ & _ & Hlo & Hhi).
  rewrite Rplus_0_l in Hlo, Hhi.
  set (n := INR (List.length xs)) in *.
  assert (Hn0 : 0 <= n) by apply pos_INR.
  assert (HT : 0 <= Rsum xs).
  { apply Rsum_nonneg. apply Forall_impl with (2 := Hxs). now intros y [_ Hy]. }
  assert (Ha : 0 <= n * u) by (apply Rmult_le_pos; lra).
  pose proof (bernoulli u (List.length xs) ltac:(lra)) as Hb. fold n in Hb.
  pose proof (pow_growth u (List.length xs) ltac:(lra)) as Hg. fold n in Hg.
  assert (H1 : (1 - n * u) * S <= Rsum xs).
  { apply Rle_trans with ((1 - n * u) * ((1 + u) ^ List.length xs * Rsum xs)).
    - apply Rmult_le_compat_l; lra.
    - rewrite <- Rmult_assoc. rewrite <- (Rmult_1_l (Rsum xs)) at 2.
      now apply Rmult_le_compat_r. }
  assert (H2 : Rsum xs <= (1 + 2 * n * u) * S).
  { assert (H3 : (1 - n * u) * Rsum xs <= S).
    { apply Rle_trans with (2 := Hlo). now apply Rmult_le_compat_r. }
    assert (H4 : (1 + 2 * n * u) * ((1 - n * u) * Rsum xs)
                 <= (1 + 2 * n * u) * S)
      by (apply Rmult_le_compat_l; lra).
    assert (H5 : 0 <= (n * u) * (1 - 2 * (n * u)) * Rsum xs).
    { apply Rmult_le_pos; [ | assumption]. apply Rmult_le_pos; lra. }
    apply Rle_trans with (2 := H4).
    replace ((1 + 2 * n * u) * ((1 - n * u) * Rsum xs))
      with (Rsum xs + (n * u) * (1 - 2 * (n * u)) * Rsum xs) by ring.
    lra. }
  split.
  - apply Rmult_le_reg_r with S; [assumption | ].
    unfold Rdiv. rewrite Rmult_assoc, Rinv_l by lra. lra.
  - apply Rmult_le_reg_r with S; [assumption | ].
    unfold Rdiv. rewrite Rmult_assoc, Rinv_l by lra. lra.
Qed.

(** C3, in the arithmetic of the code.  The weight of a source is its
    expected count divided by the sum of all expected counts, each sum and each
    quotient rounded to a double.  For non-negative counts whose computed total
    is finite and positive (it is positive exactly when the exact total is),
    the weights are finite and lie between 0 and 1, their exact sum is within
    [2 (n + 1) u + n eta] of 1 for [n] sources, unit roundoff [u] and underflow
    unit [eta], and a zero count has weight 0.  When every count is zero the
    weighting raises nothing: it returns, and each weight is NaN, the value of
    [0 / 0].  When the total overflows, every weight is 0. *)
Theorem source_weights_within_tolerance
  (self : Simulator W) (w w1 : W) (xs : list R) :
  nu_calc (sources self) (effective_area (detector self))
    (time self) (max_cosz self) w = Ok (map Fin xs, w1) ->
  Forall (fun x => is_float x /\ 0 <= x) xs ->
  2 * INR (List.length xs) * u <= 1 ->
  exists self',
    _get_expected_number rnd Omega self w = Ok (self', w1) /\
    _Nex self' = map Fin xs /\
    _source_weights self'
    = array_div rnd Omega (map Fin xs) (sum rnd Omega (map Fin xs)) /\
    (forall S : R,
        sum rnd Omega (map Fin xs) = Fin S ->
        (0 < S <-> 0 < Rsum xs) /\
        (0 < S ->
         exists ws : list R,
           _source_weights self' = map Fin ws /\
           Forall (fun v => 0 <= v <= 1) ws /\
           Rabs (Rsum ws - 1)
           <= 2 * (INR (List.length xs) + 1) * u + INR (List.length xs) * eta /\
           forall i, nth_error xs i = Some 0 -> nth_error ws i = Some 0)) /\
    (Forall (fun x => x = 0) xs ->
       _source_weights self' = map (fun _ => NaN) xs) /\
    (sum rnd Omega (map Fin xs) = PInf ->
       _source_weights self' = map (fun _ => Fin 0) xs).
Proof.
  intros Hcalc Hxs Hn.
  exists (set_expected self (map Fin xs) (source_weights rnd Omega (map Fin xs))).
  split; [ | split; [reflexivity | split; [reflexivity | split; [ | split]]]].
  - unfold _get_expected_number. now rewrite (bind_step _ _ _ _ _ Hcalc).
  - intros S Hsum.
    destruct (fold_fadd_bounds xs Hxs 0 S float_0 (Rle_refl 0) Hsum)
      as (HfS & _ & Hall & Hlo & Hhi).
    rewrite Rplus_0_l in Hlo, Hhi.
    assert (HT : 0 <= Rsum xs).
    { apply Rsum_nonneg. apply Forall_impl with (2 := Hxs). now intros y [_ Hy]. }
    assert (HP : 0 < (1 + u) ^ List.length xs) by (apply pow_lt; lra).
    assert (HQ : 0 < (1 - u) ^ List.length xs) by (apply pow_lt; lra).
    split.
    { split; intros Hpos.
      - destruct HT as [HT | HT]; [assumption | ].
        rewrite <- HT, Rmult_0_r in Hhi. lra.
      - apply Rlt_le_trans with (2 := Hlo). now apply Rmult_lt_0_compat. }
    intros HS.
    assert (Hbetween : Forall (fun x => 0 <= x <= S) xs).
    { rewrite Forall_forall in *. intros x Hin.
      split; [apply (Hxs x Hin) | apply (Hall x Hin)]. }
    exists (map (fun x => rnd (x / S)) xs).
    split; [ | split; [ | split]].
    + cbn [_source_weights set_expected]. unfold source_weights.
      rewrite Hsum. now apply weights_Fin.
    + rewrite Forall_map. apply Forall_impl with (2 := Hbetween).
      intros x Hx. now apply weight_Fin.
    + pose proof (weights_sum_error xs S HfS HS Hxs) as [Elo Ehi].
      pose proof (total_ratio xs S Hxs Hn Hsum HS) as [Qlo Qhi].
      set (n := INR (List.length xs)) in *.
      set (q := Rsum xs / S) in *.
      set (t := Rsum (map (fun x => rnd (x / S)) xs)) in *.
      assert (Hn0 : 0 <= n) by apply pos_INR.
      assert (Ha : 0 <= n * u) by (apply Rmult_le_pos; lra).
      assert (Hu2 : 2 * (n * u) * u <= u).
      { rewrite <- (Rmult_1_l u) at 3. apply Rmult_le_compat_r; lra. }
      assert (Hup : (1 + u) * q <= (1 + u) * (1 + 2 * n * u))
        by (apply Rmult_le_compat_l; lra).
      assert (Hdown : (1 - u) * (1 - n * u) <= (1 - u) * q)
        by (apply Rmult_le_compat_l; lra).
      assert (Hau : 0 <= u * (n * u)) by (apply Rmult_le_pos; lra).
      apply Rabs_le. split.
      * apply Rle_trans with ((1 - u) * (1 - n * u) - n * eta - 1); [ | lra].
        replace ((1 - u) * (1 - n * u)) with (1 - u - n * u + u * (n * u)) by ring.
        lra.
      * apply Rle_trans with ((1 + u) * (1 + 2 * n * u) + n * eta - 1); [lra | ].
        replace ((1 + u) * (1 + 2 * n * u))
          with (1 + u + 2 * n * u + 2 * (n * u) * u) by ring.
        lra.
    + intros i Hi. rewrite nth_error_map, Hi. cbn. f_equal.
      replace (0 / S) with 0 by (unfold Rdiv; ring). now apply rnd_id.
  - intros Hzero. cbn [_source_weights set_expected]. unfold source_weights.
    assert (Hsum : sum rnd Omega (map Fin xs) = Fin 0).
    { unfold sum. clear Hcalc Hxs Hn.
      induction Hzero as [| x xs Hx _ IH]; [reflexivity | ].
      cbn [map fold_left fadd]. subst x. rewrite Rplus_0_l.
      rewrite round_Fin; rewrite (rnd_id 0 float_0); [exact IH | lra]. }
    rewrite Hsum. unfold array_div. rewrite map_map.
    clear Hsum Hcalc Hxs Hn.
    induction Hzero as [| x xs Hx _ IH]; [reflexivity | ].
    cbn [map]. rewrite IH, Hx. f_equal.
    unfold fdiv. rewrite Reqb_true by reflexivity. apply fdiv_zero_zero.
  - intros Hinf. cbn [_source_weights set_expected]. unfold source_weights.
    rewrite Hinf. unfold array_div. rewrite map_map. reflexivity.
Qed.

End Rounding.

End FlFacts.

(* ===================================================================== *)
(** ** The code as written on the small setups *)

Module Demo3Facts.
Import Sim Demo Demo2 Demo3 Calls Written.



Lemma south_sphere_sample (radius : float64) (w : world) :
  sphere_sample (rng := south_random) radius w
  = Ok ((Fin 0, Fin (- (PI / 2))), S (S w)).
Proof.
  rewrite (SimFacts.sphere_sample_draws (rng := south_random) radius
             (Fin 0) (Fin 0) w (S w) (S (S w))) by reflexivity.
  rewrite half_pi. unfold pi. rewrite !fmul_Fin, fsub_Fin.
  replace (2 * 0 - 1) with (Ropp 1) by lra.
  rewrite arccos_Fin by lra. rewrite acos_opp, acos_1, fsub_Fin.
  do 3 f_equal; f_equal; lra.
Qed.

(** What [save] leaves behind.  As written and after a run has created the
    lists: the four arrays, then the AttributeError of line 177.  Before any
    run: an empty file and the AttributeError of line 169.  Where the file
    cannot be opened: no file. *)
Lemma save_as_written :
  save no_source opens point_obj_running "events.h5"
  = (Some [("true_energy"%string, H5array []); ("reco_energy"%string, H5array []);
           ("ra"%string, H5array []); ("dec"%string, H5array [])],
     Raise AttributeError) /\
  save no_source opens point_obj "events.h5" = (Some [], Raise AttributeError) /\
  save no_source unwritable point_obj_running "events.h5" = (None, Raise OSError).
Proof. repeat split. Qed.

(** With [source] read as [sources], a pass above the cutoff: the thrown
    declination is -pi/2, the cos-zenith is [-sin(dec) = 1 > 1/2], the
    probability is 0 and the effective area, which would raise, is not
    asked. *)
Lemma trial_above_cutoff (w : world) :
  Sim.trial (rng := south_random) cutoff_sim 0 w
  = Ok (south_trial, S (S (S w))).
Proof.
  unfold Sim.trial, detection_prob_of, source, detector.
  erewrite bind_step by reflexivity.
  erewrite bind_step by reflexivity.
  erewrite bind_step by reflexivity.
  erewrite bind_step by apply south_sphere_sample.
  cbn [sin fneg]. rewrite sin_neg, sin_PI2, Ropp_involutive.
  cbn [cutoff_sim max_cosz fgtb]. rewrite Rgtb_true by lra.
  erewrite bind_step by reflexivity.
  assert (Hchoice :
    random_choice (NumpyRandom := south_random) [true; false]
      [Fin 0; (Fin 1 - Fin 0)%np] (S (S w)) = Ok (false, S (S (S w)))).
  { cbn [random_choice south_random combine filter snd fgtb fsub fadd fneg].
    rewrite (Rgtb_false 0 0) by lra.
    rewrite (Rgtb_true (1 + - 0) 0) by lra. reflexivity. }
  erewrite bind_step by exact Hchoice.
  reflexivity.
Qed.

(** There the loop never ends: every pass is the same rejected one. *)
Lemma loop_above_cutoff (fuel : nat) :
  forall w : world,
    Sim.rejection_loop (rng := south_random) fuel cutoff_sim 0 w = OutOfFuel.
Proof.
  induction fuel as [| fuel IH]; intros w; [reflexivity | ].
  rewrite (SimFacts.rejection_loop_retry (rng := south_random)
             fuel cutoff_sim 0 w _ _ (trial_above_cutoff w) eq_refl).
  apply IH.
Qed.

Lemma double_max_large : 4 <= double_max.
Proof.
  unfold double_max.
  assert (H52 : 1 <= 2 ^ 52) by (apply pow_R1_Rle; lra).
  assert (Hinv : / 2 ^ 52 <= 1).
  { rewrite <- Rinv_1. apply Rinv_le_contravar; lra. }
  assert (H1021 : 1 <= 2 ^ 1021) by (apply pow_R1_Rle; lra).
  change 1023%nat with (2 + 1021)%nat. rewrite pow_add.
  replace (2 ^ 2) with 4 by (simpl; lra).
  apply Rle_trans with (1 * 4); [lra | ].
  apply Rmult_le_compat; lra.
Qed.

Lemma unit_roundoff_small : 0 <= unit_roundoff <= / 8.
Proof.
  unfold unit_roundoff. split.
  - left. apply Rinv_0_lt_compat. apply pow_lt. lra.
  - replace 8 with (2 ^ 3) by (simpl; lra).
    apply Rinv_le_contravar; [apply pow_lt; lra | ].
    apply Rle_pow; [lra | ]. repeat constructor.
Qed.

Lemma underflow_unit_pos : 0 <= underflow_unit.
Proof. unfold underflow_unit. left. apply Rinv_0_lt_compat. apply pow_lt. lra. Qed.

Lemma exact_error (z b : R) : 0 <= b -> Rabs (exact z - z) <= b.
Proof.
  intros Hb. unfold exact. replace (z - z) with 0 by ring. now rewrite Rabs_R0.
Qed.

(** With three, no and one expected event the total is 4 and the weights are
    3/4, 0 and 1/4. *)
Lemma exact_weights :
  Fl.sum exact double_max [Fin 3; Fin 0; Fin 1] = Fin 4 /\
  Fl.source_weights exact double_max [Fin 3; Fin 0; Fin 1]
  = [Fin (3 / 4); Fin 0; Fin (1 / 4)].
Proof.
  pose proof double_max_large as Hmax.
  assert (Hsum : Fl.sum exact double_max [Fin 3; Fin 0; Fin 1] = Fin 4).
  { unfold Fl.sum. cbn [fold_left Fl.fadd].
    rewrite FlFacts.round_Fin by (unfold exact; lra). cbn [Fl.fadd].
    rewrite FlFacts.round_Fin by (unfold exact; lra). cbn [Fl.fadd].
    rewrite FlFacts.round_Fin by (unfold exact; lra).
    unfold exact. f_equal. lra. }
  split; [exact Hsum | ].
  unfold Fl.source_weights. rewrite Hsum.
  unfold Fl.array_div, Fl.fdiv. cbn [map].
  rewrite (Reqb_false 4 0) by lra.
  rewrite !FlFacts.round_Fin by (unfold exact; lra).
  unfold exact. repeat f_equal; lra.
Qed.

(** Two counts of the largest double: the total overflows, and both weights
    are 0. *)
Lemma overflowing_total :
  Fl.sum exact double_max [Fin double_max; Fin double_max] = PInf /\
  Fl.source_weights exact double_max [Fin double_max; Fin double_max]
  = [Fin 0; Fin 0].
Proof.
  pose proof double_max_large as Hmax.
  assert (Hsum : Fl.sum exact double_max [Fin double_max; Fin double_max] = PInf).
  { unfold Fl.sum. cbn [fold_left Fl.fadd].
    rewrite FlFacts.round_Fin by (unfold exact; lra). cbn [Fl.fadd].
    unfold Fl.round. rewrite Rgtb_true by (unfold exact; lra). reflexivity. }
  split; [exact Hsum | ].
  unfold Fl.source_weights. rewrite Hsum. reflexivity.
Qed.

Lemma source_weights_within_tolerance_witness :
  (exists (self' : Simulator world) (ws : list R),
      Fl._get_expected_number (calc := three_none_one) exact double_max
        triple_sim 0%nat = Ok (self', 0%nat) /\
      _Nex self' = [Fin 3; Fin 0; Fin 1] /\
      _source_weights self' = map Fin ws /\
      Forall (fun v => 0 <= v <= 1) ws /\
      Rabs (Rsum ws - 1)
      <= 2 * (INR 3 + 1) * unit_roundoff + INR 3 * underflow_unit /\
      nth_error ws 1 = Some 0) /\
  (exists self' : Simulator world,
      Fl._get_expected_number (calc := none_at_all) exact double_max
        pair_sim 0%nat = Ok (self', 0%nat) /\
      _source_weights self' = [NaN; NaN]) /\
  (exists self' : Simulator world,
      Fl._get_expected_number (calc := largest_each) exact double_max
        pair_sim 0%nat = Ok (self', 0%nat) /\
      _source_weights self' = [Fin 0; Fin 0]).
Proof.
  pose proof double_max_large as Hmax.
  pose proof unit_roundoff_small as Hu.
  pose proof underflow_unit_pos as Heta.
  assert (Hadd : forall x y : R, True -> True ->
            Rabs (exact (x + y) - (x + y)) <= unit_roundoff * Rabs (x + y)).
  { intros x y _ _. apply exact_error.
    apply Rmult_le_pos; [lra | apply Rabs_pos]. }
  assert (Hdiv : forall x y : R, True -> True -> y <> 0 ->
            Rabs (exact (x / y) - x / y)
            <= unit_roundoff * Rabs (x / y) + underflow_unit).
  { intros x y _ _ _. apply exact_error.
    apply Rplus_le_le_0_compat; [ | lra].
    apply Rmult_le_pos; [lra | apply Rabs_pos]. }
  pose proof (@FlFacts.source_weights_within_tolerance exact double_max
                (fun _ => True) unit_roundoff underflow_unit
                ltac:(lra) ltac:(lra) I I (fun _ => I) (fun x _ => eq_refl)
                (fun x y H => H) Hadd Hdiv world) as weights.
  split; [ | split].
  - destruct (weights three_none_one triple_sim 0%nat 0%nat [3; 0; 1] eq_refl)
      as (self' & Hrun & HNex & _ & Hsum & _ & _).
    + repeat constructor; lra.
    + replace (INR (List.length [3; 0; 1])) with 3 by (simpl; lra). lra.
    + destruct (Hsum 4 (proj1 exact_weights)) as [_ Hpos].
      destruct (Hpos ltac:(lra)) as (ws & Hws & Hrange & Htol & Hzero).
      exists self', ws.
      exact (conj Hrun (conj HNex (conj Hws (conj Hrange
               (conj Htol (Hzero 1%nat eq_refl)))))).
  - destruct (weights none_at_all pair_sim 0%nat 0%nat [0; 0] eq_refl)
      as (self' & Hrun & _ & _ & _ & Hzero & _).
    + repeat constructor; lra.
    + replace (INR (List.length [0; 0])) with 2 by (simpl; lra). lra.
    + exists self'. split; [exact Hrun | ].
      apply Hzero. repeat constructor.
  - destruct (weights largest_each pair_sim 0%nat 0%nat
                [double_max; double_max] eq_refl)
      as (self' & Hrun & _ & _ & _ & _ & Hinf).
    + repeat constructor; lra.
    + replace (INR (List.length [double_max; double_max])) with 2
        by (simpl; lra). lra.
    + exists self'. split; [exact Hrun | ].
      apply Hinf. exact (proj1 overflowing_total).
Defined.

(** A negative count with a positive total: its weight is negative. *)
Lemma negative_count :
  Fl.sum exact double_max [Fin (-1); Fin 2] = Fin 1 /\
  Fl.source_weights exact double_max [Fin (-1); Fin 2] = [Fin (-1); Fin 2].
Proof.
  pose proof double_max_large as Hmax.
  assert (Hsum : Fl.sum exact double_max [Fin (-1); Fin 2] = Fin 1).
  { unfold Fl.sum. cbn [fold_left Fl.fadd].
    rewrite FlFacts.round_Fin by (unfold exact; lra). cbn [Fl.fadd].
    rewrite FlFacts.round_Fin by (unfold exact; lra).
    unfold exact. f_equal. lra. }
  split; [exact Hsum | ].
  unfold Fl.source_weights. rewrite Hsum.
  unfold Fl.array_div, Fl.fdiv. cbn [map].
  rewrite (Reqb_false 1 0) by lra.
  rewrite !FlFacts.round_Fin by (unfold exact; lra).
  unfold exact. repeat f_equal; lra.
Qed.

(** No count at all of two sources: the rounded weighting returns NaN
    weights as the exact one does. *)
Lemma rounded_zero_counts :
  Fl._get_expected_number (calc := none_at_all) exact double_max pair_sim 0%nat
  = Ok (set_expected pair_sim [Fin 0; Fin 0] [NaN; NaN], 0%nat).
Proof.
  pose proof double_max_large as Hmax.
  unfold Fl._get_expected_number.
  erewrite bind_step by reflexivity.
  change (map (fun _ : Source world => Fin 0) (sources pair_sim))
    with [Fin 0; Fin 0].
  unfold Fl.source_weights, Fl.sum. cbn [fold_left Fl.fadd].
  rewrite FlFacts.round_Fin by (unfold exact; lra). cbn [Fl.fadd].
  rewrite FlFacts.round_Fin by (unfold exact; lra).
  unfold exact. replace (0 + 0 + 0) with 0 by lra.
  unfold Fl.array_div, Fl.fdiv. cbn [map].
  rewrite (Reqb_true 0 0) by reflexivity. rewrite fdiv_zero_zero. reflexivity.
Qed.

(** With the unit roundoff and the underflow unit of doubles, the tolerance
    for up to a million sources is below 1e-9. *)
Lemma double_tolerance (n : nat) :
  INR n <= 1000000 ->
  2 * (INR n + 1) * unit_roundoff + INR n * underflow_unit <= / 10 ^ 9.
Proof.
  intros Hn.
  pose proof (pos_INR n) as Hn0.
  assert (Hu : 0 < unit_roundoff <= / 9007199254740992).
  { unfold unit_roundoff. split.
    - apply Rinv_0_lt_compat. apply pow_lt. lra.
    - right. f_equal. simpl. lra. }
  assert (Heta : 0 <= underflow_unit <= unit_roundoff).
  { split; [apply underflow_unit_pos | ].
    unfold underflow_unit, unit_roundoff.
    apply Rinv_le_contravar; [apply pow_lt; lra | ].
    apply Rle_pow; [lra | ]. apply Nat.leb_le. reflexivity. }
  assert (H1 : INR n * underflow_unit <= INR n * unit_roundoff)
    by (apply Rmult_le_compat_l; lra).
  assert (H2 : (3 * INR n + 2) * unit_roundoff
               <= 3000002 * / 9007199254740992).
  { apply Rmult_le_compat; lra. }
  replace (10 ^ 9) with 1000000000 by (simpl; lra).
  lra.
Qed.

End Demo3Facts.
